(** * signale: the message composer and the timer engine of [signale.js]

    A shallow embedding of the class [Signale] of [src/signale.js] and the
    properties of its message composition ([_buildSignale], [_logger]), of its
    configuration replacement ([config]) and of its timers ([time],
    [timeEnd]).

    Conventions of the embedding.
    - JavaScript values are the trees of [value]: primitives, arrays, plain
      objects and [Error] objects, held by value.  Numbers are integers
      (timestamps, counts); elapsed times go through IEEE binary64 only where
      the source divides ([executionTime]).
    - The two style records of [this.__timers] are read by the source through
      their own keys [color], [badge], [text] and [time] only, and every
      write in place goes to both records with the same key and value; the
      records are therefore kept as values.  What by-value storage does not
      show is the object nested under the keys [start] and [end] that
      [time] copies from its options, which in the source is shared with the
      record itself and which the source never reads.
    - A call either returns, throws, or leaves the fragment described here
      ([outcome]); the instance state reached at that point is returned with
      it, since a caller can catch the error and go on using the instance.
    - What the source imports ([chalk], [figures], [pkg-conf], the built-in
      table [./types]) and what it reads from the engine during one call (the
      clock, the call stack) is the record [World]. *)

From Stdlib Require Import ZArith String Ascii List Bool Lia.
From Stdlib Require Import Floats.SpecFloat.
From stdpp Require Import base option list strings gmap pretty.

Set Warnings "-register-all".
Local Open Scope string_scope.
Local Open Scope Z_scope.
Local Open Scope list_scope.

(** ** JavaScript values *)

Inductive value : Type :=
| VUndef
| VNull
| VBool (b : bool)
| VNum (n : Z)
| VStr (s : string)
| VArr (l : list value)
| VObj (m : gmap string value)
| VErr (name message stack : string).

(** [!v] is [negb (truthy v)]. *)
Definition truthy (v : value) : bool :=
  match v with
  | VUndef | VNull => false
  | VBool b => b
  | VNum n => negb (n =? 0)
  | VStr s => negb (String.eqb s "")
  | VArr _ | VObj _ | VErr _ _ _ => true
  end.

(** [typeof v === 'object'] *)
Definition typeof_object (v : value) : bool :=
  match v with
  | VNull | VArr _ | VObj _ | VErr _ _ _ => true
  | _ => false
  end.

(** [v instanceof Error] *)
Definition instanceof_Error (v : value) : bool :=
  match v with VErr _ _ _ => true | _ => false end.

(** ** Strings *)

Definition join (sep : string) (l : list string) : string := String.concat sep l.

(** [String(v)]: the string a template literal, [chalk] or the elements of
    [Array.prototype.join] see. *)
Fixpoint to_string (v : value) : string :=
  match v with
  | VUndef => "undefined"
  | VNull => "null"
  | VBool true => "true"
  | VBool false => "false"
  | VNum n => pretty n
  | VStr s => s
  | VArr l =>
      join "," (map (fun x => match x with
                              | VUndef | VNull => ""
                              | _ => to_string x
                              end) l)
  | VObj _ => "[object Object]"
  | VErr name message _ =>
      if String.eqb name "" then message
      else if String.eqb message "" then name
      else name +:+ ": " +:+ message
  end.

(** One element of [Array.prototype.join]: [undefined] and [null] print as
    the empty string. *)
Definition join_item (v : value) : string :=
  match v with
  | VUndef | VNull => ""
  | _ => to_string v
  end.

(** [arr.join(sep)] *)
Definition Array_join (sep : string) (l : list value) : string :=
  join sep (map join_item l).

Fixpoint spaces (n : nat) : string :=
  match n with
  | O => ""
  | S n' => String " " (spaces n')
  end.

(** [s.padEnd(n)] *)
Definition padEnd (s : string) (n : nat) : string :=
  s +:+ spaces (n - String.length s).

(** [s.includes(sub)] *)
Fixpoint includes (s sub : string) : bool :=
  String.prefix sub s ||
  match s with
  | EmptyString => false
  | String _ s' => includes s' sub
  end.

Definition newline : ascii := ascii_of_nat 10.

(** [s.split('\n')], always at least one piece. *)
Fixpoint split_lines (s : string) : list string :=
  match s with
  | EmptyString => [""]
  | String c s' =>
      if Ascii.eqb c newline then "" :: split_lines s'
      else match split_lines s' with
           | [] => [String c ""]
           | l :: ls => String c l :: ls
           end
  end.

(** [s.replace(',', r)]: the first comma only.  The replacement is taken
    literally (the styled duration carries no [$] pattern). *)
Fixpoint replace_first_comma (s r : string) : string :=
  match s with
  | EmptyString => ""
  | String c s' =>
      if Ascii.eqb c "," then r +:+ s' else String c (replace_first_comma s' r)
  end.

(** [m] occurs in [s] as a contiguous substring. *)
Definition substring_of (m s : string) : Prop :=
  exists a b : string, s = a +:+ m +:+ b.

(** ** Outcomes of a call *)

Inductive error : Type :=
| TypeError.

Inductive outcome (A : Type) : Type :=
| Ok (a : A)
| Throw (e : error)
| Outside.
Arguments Ok {A} a.
Arguments Throw {A} e.
Arguments Outside {A}.

Definition obind {A B : Type} (o : outcome A) (k : A -> outcome B) : outcome B :=
  match o with
  | Ok a => k a
  | Throw e => Throw e
  | Outside => Outside
  end.

(** ** Property access *)

(** [o.k] for a name [k] that no built-in prototype defines ([color],
    [badge], [text], [time], [both], [start], [end], [message], [prefix],
    [suffix]). *)
Definition js_get (o : value) (k : string) : outcome value :=
  match o with
  | VUndef | VNull => Throw TypeError
  | VObj m => Ok (default VUndef (m !! k))
  | _ => Ok VUndef
  end.

(** [o[k] = v] in strict mode.  A primitive refuses the write; an array or
    an [Error] object would take it, which [value] cannot record. *)
Definition js_set (o : value) (k : string) (v : value) : outcome value :=
  match o with
  | VObj m => Ok (VObj (<[k := v]> m))
  | VArr _ | VErr _ _ _ => Outside
  | _ => Throw TypeError
  end.

Fixpoint chars (s : string) : list string :=
  match s with
  | EmptyString => []
  | String c s' => String c "" :: chars s'
  end.

Definition indexed {A : Type} (l : list A) : list (string * A) :=
  imap (fun (i : nat) (x : A) => (pretty i, x)) l.

(** [Object.keys(o)] paired with [o[key]] for each key, as the [forEach]
    loops of [time] read them. *)
Definition own_entries (o : value) : list (string * value) :=
  match o with
  | VObj m => map_to_list m
  | VArr l => indexed l
  | VStr s => indexed (VStr <$> chars s)
  | _ => []
  end.

(** [Object.assign(target, source)]: the own enumerable properties of
    [source] written over [target]; [undefined] and [null] bring none. *)
Definition Object_assign (target : gmap string value) (source : value)
  : gmap string value :=
  list_to_map (own_entries source) ∪ target.

(** ** What the module imports and reads *)

(** An entry of the type table ([./types], or a caller's custom type). *)
Record TypeDesc : Type := {
  badge : option string;
  color : option string;
  label : option string
}.

Record World : Type := {
  (** [chalk[name]] is one of the library's chainable styles. *)
  chalk_has : string -> bool;
  (** A chain of styles applied to a text, [chalk.a.b(text)]. *)
  chalk_apply : list string -> string -> string;
  (** [figures.pointerSmall] *)
  pointerSmall : string;
  (** [String.prototype.toUpperCase] and [trim], aware of Unicode in the
      engine. *)
  toUpperCase : string -> string;
  trim : string -> string;
  (** [Date.now()], [new Date().toLocaleDateString()], [toLocaleTimeString()]
      and the caller's file name found on the stack, during this call. *)
  Date_now : Z;
  date : string;
  timestamp : string;
  filename : option string;
  (** [pkgConf.sync(namespace, {defaults})], a fresh object at every read. *)
  packageConfiguration : gmap string value;
  (** The built-in table of [require('./types')]. *)
  types : gmap string TypeDesc
}.

(** [chalk[name]] for a property name computed from a value: the chain to
    apply, when the library has that style. *)
Definition chalk_style (w : World) (name : string) : option (list string) :=
  if chalk_has w name then Some [name] else None.

Definition chalk_grey (w : World) (text : string) : string :=
  chalk_apply w ["grey"] text.

Definition chalk_underline (w : World) (text : string) : string :=
  chalk_apply w ["underline"] text.

(** [const now = () => Date.now()] and [const timeSpan = then => now() - then] *)
Definition now (w : World) : Z := Date_now w.

Definition timeSpan (w : World) (then_ : Z) : Z := now w - then_.

(** ** The instance *)

Inductive scope : Type :=
| ScopeStr (s : string)
| ScopeArr (l : list string).

(** [this.__timers]: the style overrides of the timer reports. *)
Record TimerStyles : Type := {
  start : value;
  end_ : value
}.

(** The [Map] of running timers, in insertion order. *)
Module Map.
Definition t : Type := list (string * Z).

Definition has (m : t) (k : string) : bool :=
  existsb (fun p => String.eqb (fst p) k) m.

Fixpoint get (m : t) (k : string) : option Z :=
  match m with
  | [] => None
  | (k', v) :: m' => if String.eqb k' k then Some v else get m' k
  end.

(** An existing key keeps its place; a new key goes last. *)
Fixpoint set (m : t) (k : string) (v : Z) : t :=
  match m with
  | [] => [(k, v)]
  | (k', v') :: m' =>
      if String.eqb k' k then (k, v) :: m' else (k', v') :: set m' k v
  end.

Definition delete (m : t) (k : string) : t :=
  List.filter (fun p => negb (String.eqb (fst p) k)) m.

Definition size (m : t) : nat := length m.

Definition keys (m : t) : list string := map fst m.
End Map.

Record Signale : Type := {
  _config : gmap string value;
  _customTypes : gmap string TypeDesc;
  _scopeName : scope;
  _timers : Map.t;
  __timers : TimerStyles;
  _types : gmap string TypeDesc;
  _stream : list string;
  _longestLabel : nat
}.

Definition set_config (c : gmap string value) (s : Signale) : Signale :=
  {| _config := c; _customTypes := _customTypes s; _scopeName := _scopeName s;
     _timers := _timers s; __timers := __timers s; _types := _types s;
     _stream := _stream s; _longestLabel := _longestLabel s |}.

Definition set_timers (m : Map.t) (s : Signale) : Signale :=
  {| _config := _config s; _customTypes := _customTypes s;
     _scopeName := _scopeName s; _timers := m; __timers := __timers s;
     _types := _types s; _stream := _stream s;
     _longestLabel := _longestLabel s |}.

Definition set_styles (t : TimerStyles) (s : Signale) : Signale :=
  {| _config := _config s; _customTypes := _customTypes s;
     _scopeName := _scopeName s; _timers := _timers s; __timers := t;
     _types := _types s; _stream := _stream s;
     _longestLabel := _longestLabel s |}.

Definition set_stream (o : list string) (s : Signale) : Signale :=
  {| _config := _config s; _customTypes := _customTypes s;
     _scopeName := _scopeName s; _timers := _timers s; __timers := __timers s;
     _types := _types s; _stream := o; _longestLabel := _longestLabel s |}.

(** [this._config.<flag>] read as a condition. *)
Definition flag (s : Signale) (name : string) : bool :=
  truthy (default VUndef (_config s !! name)).

(** The names every plain object inherits from [Object.prototype]. *)
Definition Object_prototype_names : list string :=
  [ "constructor"; "__defineGetter__"; "__defineSetter__"; "hasOwnProperty";
    "__lookupGetter__"; "__lookupSetter__"; "isPrototypeOf";
    "propertyIsEnumerable"; "toString"; "valueOf"; "__proto__";
    "toLocaleString" ].

(** [this._types[type]]: an entry of the table; for an inherited name, a
    function or object on which [badge], [color] and [label] are
    [undefined]; otherwise [undefined] ([None]). *)
Definition types_get (s : Signale) (type : string) : option TypeDesc :=
  match _types s !! type with
  | Some d => Some d
  | None =>
      if existsb (String.eqb type) Object_prototype_names
      then Some {| badge := None; color := None; label := None |}
      else None
  end.

(** [new Signale()], with the default [options = {}]. *)
Definition Signale_new (w : World) : outcome Signale :=
  match types w !! "start" with
  | None => Throw TypeError
  | Some st =>
      match label st with
      | None => Throw TypeError
      | Some l =>
          Ok {| _config := Object_assign (packageConfiguration w) VUndef;
                _customTypes := ∅;
                _scopeName := ScopeStr "";
                _timers := [];
                __timers := {| start := VObj ∅; end_ := VObj ∅ |};
                _types := types w;
                _stream := [];
                _longestLabel :=
                  map_fold (fun _ d n =>
                              match label d with
                              | Some l' =>
                                  if negb (String.eqb l' "")
                                     && (n <? String.length l')%nat
                                  then String.length l' else n
                              | None => n
                              end)
                           (String.length l) (types w) |}
      end
  end.

(** ** Calls on an instance: state passing with errors *)

Definition M (A : Type) : Type := Signale -> Signale * outcome A.

Definition ret {A : Type} (a : A) : M A := fun s => (s, Ok a).

Definition bind {A B : Type} (c : M A) (k : A -> M B) : M B :=
  fun s =>
    match c s with
    | (s', Ok a) => k a s'
    | (s', Throw e) => (s', Throw e)
    | (s', Outside) => (s', Outside)
    end.

Definition lift {A : Type} (o : outcome A) : M A := fun s => (s, o).

Definition gets {A : Type} (f : Signale -> A) : M A := fun s => (s, Ok (f s)).

Definition modify (f : Signale -> Signale) : M unit := fun s => (f s, Ok tt).

Declare Scope js_scope.
Delimit Scope js_scope with js.
Notation "x <~ c ;; k" := (bind c (fun x => k))
  (at level 100, c at next level, right associativity) : js_scope.
Notation "c ;;; k" := (bind c (fun _ => k))
  (at level 100, right associativity) : js_scope.
Notation "x <~? c ;; k" := (obind c (fun x => k))
  (at level 100, c at next level, right associativity) : js_scope.
Local Open Scope js_scope.

(** [list.forEach(f)] *)
Fixpoint forEach {A : Type} (l : list A) (f : A -> M unit) : M unit :=
  match l with
  | [] => ret tt
  | x :: l' => f x ;;; forEach l' f
  end.

(** ** The meta prefix *)

Definition _formatDate (w : World) : string := "[" +:+ date w +:+ "]".

Definition _formatFilename (w : World) : string :=
  "[" +:+ default "undefined" (filename w) +:+ "]".

Definition _formatScopeName (w : World) (s : Signale) : string :=
  match _scopeName s with
  | ScopeArr names =>
      let scopes := List.filter (fun x => negb (String.length x =? 0)%nat) names in
      join " " (map (fun x => "[" +:+ trim w x +:+ "]") scopes)
  | ScopeStr name => "[" +:+ name +:+ "]"
  end.

Definition _formatTimestamp (w : World) : string := "[" +:+ timestamp w +:+ "]".

Definition scope_length (sc : scope) : nat :=
  match sc with
  | ScopeStr name => String.length name
  | ScopeArr names => length names
  end.

Definition _meta (w : World) (s : Signale) : list string :=
  let meta := [] in
  let meta := if flag s "displayDate" then meta ++ [_formatDate w] else meta in
  let meta := if flag s "displayTimestamp"
              then meta ++ [_formatTimestamp w] else meta in
  let meta := if flag s "displayFilename"
              then meta ++ [_formatFilename w] else meta in
  let meta := if negb (scope_length (_scopeName s) =? 0)%nat
                 && flag s "displayScope"
              then meta ++ [_formatScopeName w s] else meta in
  if negb (length meta =? 0)%nat
  then map (chalk_grey w) (meta ++ [pointerSmall w])
  else meta.

(** [this._stream.write(message + '\n')] *)
Definition _log (message : string) : M unit :=
  modify (fun s => set_stream (_stream s ++ [message +:+ String newline ""]) s).

(** ** Composing a message *)

Definition opt_value (o : option string) : value :=
  match o with
  | Some x => VStr x
  | None => VUndef
  end.

(** [chalk[type.color]], called or chained: a [TypeError] when the library
    has no such style. *)
Definition chalk_of_type (w : World) (d : TypeDesc) : outcome (list string) :=
  match chalk_style w (to_string (opt_value (color d))) with
  | Some chain => Ok chain
  | None => Throw TypeError
  end.

(** [type.badge] and [type.label] on the looked-up entry; on [undefined]
    the read itself throws. *)
Definition type_field (type : option TypeDesc) (f : TypeDesc -> option string)
  : outcome (option string) :=
  match type with
  | Some d => Ok (f d)
  | None => Throw TypeError
  end.

Definition nonempty (o : option string) : option string :=
  match o with
  | Some x => if String.eqb x "" then None else Some x
  | None => None
  end.

(** The first block of [_buildSignale]: the message, and the prefix and
    suffix kept in [additional], read from the arguments. *)
Definition message_of (args : list value) : value * value * value :=
  match args with
  | [a] =>
      if typeof_object a && negb (match a with VNull => true | _ => false end)
      then
        if instanceof_Error a then (a, VUndef, VUndef)
        else
          match a with
          | VObj m => (default VUndef (m !! "message"),
                       default VUndef (m !! "prefix"),
                       default VUndef (m !! "suffix"))
          | _ => (VUndef, VUndef, VUndef)
          end
      else (VStr (Array_join " " args), VUndef, VUndef)
  | _ => (VStr (Array_join " " args), VUndef, VUndef)
  end.

Definition _buildSignale (w : World) (s : Signale) (type : option TypeDesc)
    (args : list value) : outcome string :=
  let '(msg, prefix, suffix) := message_of args in
  let signale := VStr <$> _meta w s in
  let signale :=
    if truthy prefix then
      if flag s "underlinePrefix"
      then signale ++ [VStr (chalk_underline w (to_string prefix))]
      else signale ++ [prefix]
    else signale in
  signale <~?
    (if flag s "displayBadge" then
       b <~? type_field type badge ;;
       match nonempty b, type with
       | Some b, Some d =>
           c <~? chalk_of_type w d ;;
           Ok (signale ++ [VStr (chalk_apply w c
                                   (padEnd b (String.length b + 1)))])
       | _, _ => Ok signale
       end
     else Ok signale) ;;
  signale <~?
    (if flag s "displayLabel" then
       l <~? type_field type label ;;
       match nonempty l, type with
       | Some l, Some d =>
           let label := if flag s "uppercaseLabel" then toUpperCase w l else l in
           c <~? chalk_of_type w d ;;
           if flag s "underlineLabel"
           then Ok (signale ++ [VStr (padEnd (chalk_apply w (c ++ ["underline"]) label)
                                             (_longestLabel s + 20))])
           else Ok (signale ++ [VStr (chalk_apply w c
                                        (padEnd label (_longestLabel s + 1)))])
       | _, _ => Ok signale
       end
     else Ok signale) ;;
  match msg with
  | VErr _ _ stack =>
      match split_lines stack with
      | name :: rest =>
          let signale :=
            if flag s "underlineMessage"
            then signale ++ [VStr (chalk_underline w name)]
            else signale ++ [VStr name] in
          let signale :=
            signale ++ [VStr (chalk_grey w
                                (join "" (map (fun l => String newline l) rest)))] in
          Ok (Array_join " " signale)
      | [] => Ok (Array_join " " signale)
      end
  | _ =>
      let signale :=
        if flag s "underlineMessage"
        then signale ++ [VStr (chalk_underline w (to_string msg))]
        else signale ++ [msg] in
      let signale :=
        if truthy suffix then
          if flag s "underlineSuffix"
          then signale ++ [VStr (chalk_underline w (to_string suffix))]
          else signale ++ [suffix]
        else signale in
      Ok (Array_join " " signale)
  end.

Definition _logger (w : World) (type : string) (messageObj : list value) : M unit :=
  line <~ (fun s => (s, _buildSignale w s (types_get s type) messageObj)) ;;
  _log line.

(** ** Replacing the configuration *)

(** [set configuration(configObj)] *)
Definition configuration (w : World) (configObj : value) : M unit :=
  modify (set_config (Object_assign (packageConfiguration w) configObj)).

Definition config (w : World) (configObj : value) : M unit :=
  configuration w configObj.

(** ** Elapsed time as text *)

(** The binary64 format of JavaScript numbers. *)
Definition prec : Z := 53.
Definition emax : Z := 1024.

(** An integer as a number (exact below [2 ^ 53]). *)
Definition Number_of_Z (n : Z) : spec_float := binary_normalize prec emax n 0 false.

(** [x / y] on numbers. *)
Definition Number_div (x y : spec_float) : spec_float := SFdiv prec emax x y.

(** For a positive finite number [m * 2 ^ e]: the integer [n] for which
    [n / 100] is nearest to it, the larger one on a tie. *)
Definition hundredths (m : positive) (e : Z) : Z :=
  if 0 <=? e then 100 * Z.pos m * 2 ^ e
  else (200 * Z.pos m + 2 ^ (- e)) / 2 ^ (1 - e).

(** [m * 2 ^ e >= 10 ^ 21] *)
Definition at_least_1e21 (m : positive) (e : Z) : bool :=
  if 0 <=? e then 10 ^ 21 <=? Z.pos m * 2 ^ e
  else 10 ^ 21 * 2 ^ (- e) <=? Z.pos m.

(** [n] hundredths in decimal: the integer part, a point, two digits. *)
Definition two_decimals (n : Z) : string :=
  pretty (n / 100) +:+ "." +:+ pretty (n / 10 mod 10) +:+ pretty (n mod 10).

(** [x.toFixed(2)].  From [10 ^ 21] on the engine prints the number as
    [String(x)] does, in exponent notation, which is not described here. *)
Definition toFixed2 (x : spec_float) : outcome string :=
  match x with
  | S754_nan => Ok "NaN"
  | S754_infinity sign => Ok (if sign then "-Infinity" else "Infinity")
  | S754_zero _ => Ok "0.00"
  | S754_finite sign m e =>
      if at_least_1e21 m e then Outside
      else Ok ((if sign then "-" else "") +:+ two_decimals (hundredths m e))
  end.

(** [span < 1000 ? span + 'ms' : (span / 1000).toFixed(2) + 's'] *)
Definition executionTime (span : Z) : outcome string :=
  if span <? 1000 then Ok (pretty span +:+ "ms")
  else
    t <~? toFixed2 (Number_div (Number_of_Z span) (Number_of_Z 1000)) ;;
    Ok (t +:+ "s").

(** ** Timers *)

Module Report.
(** What [timeEnd] returns: [{label, span}]. *)
Record t : Type := { label : string; span : Z }.
End Report.

Definition textType (text : value) : option string :=
  match text with
  | VStr _ => Some "string"
  | VNull | VArr _ | VObj _ | VErr _ _ _ => Some "object"
  | VBool _ => Some "boolean"
  | _ => None
  end.

Definition is_object_text (text : value) : bool :=
  match textType text with
  | Some t => String.eqb t "object"
  | None => false
  end.

(** [!label] *)
Definition no_label (label : option string) : bool :=
  match label with
  | Some l => String.eqb l ""
  | None => true
  end.

(** [this.__timers.start[key] = v; this.__timers.end[key] = v;] *)
Definition set_style_key (key : string) (v : value) : M unit :=
  st <~ gets (fun s => start (__timers s)) ;;
  st' <~ lift (js_set st key v) ;;
  modify (fun s => set_styles {| start := st'; end_ := end_ (__timers s) |} s) ;;;
  en <~ gets (fun s => end_ (__timers s)) ;;
  en' <~ lift (js_set en key v) ;;
  modify (fun s => set_styles {| start := start (__timers s); end_ := en' |} s).

(** The body of the [forEach] loops of [time], on a key and its value. *)
Definition set_style_entry (entry : string * value) : M unit :=
  set_style_key (fst entry) (snd entry).

(** The [if (options)] block of [time]. *)
Definition apply_options (options : value) : M unit :=
  if truthy options then
    both <~ lift (js_get options "both") ;;
    if truthy both then
      forEach (own_entries both) set_style_entry
    else
      st <~ lift (js_get options "start") ;;
      (if truthy st
       then modify (fun s => set_styles {| start := st; end_ := end_ (__timers s) |} s)
       else ret tt) ;;;
      en <~ lift (js_get options "end") ;;
      (if truthy en
       then modify (fun s => set_styles {| start := start (__timers s); end_ := en |} s)
       else ret tt) ;;;
      forEach (own_entries options) set_style_entry
  else ret tt.

(** [chalk[record.key] || chalk.fallback] *)
Definition chalk_or (w : World) (v : value) (fallback : string) : list string :=
  match chalk_style w (to_string v) with
  | Some chain => chain
  | None => [fallback]
  end.

(** [record.badge || this._types.<type>.badge] *)
Definition badge_or (s : Signale) (b : value) (type : string) : outcome value :=
  if truthy b then Ok b
  else match _types s !! type with
       | Some d => Ok (opt_value (badge d))
       | None => Throw TypeError
       end.

(** [badge.padEnd(n)]: only a string has the method. *)
Definition value_padEnd (v : value) (n : nat) : outcome string :=
  match v with
  | VStr x => Ok (padEnd x n)
  | _ => Throw TypeError
  end.

(** The line [time] writes. *)
Definition start_report (w : World) (s : Signale) (label : string) : outcome string :=
  let message := _meta w s in
  let timerStart := start (__timers s) in
  c <~? js_get timerStart "color" ;;
  let __color := chalk_or w c "green" in
  b <~? js_get timerStart "badge" ;;
  __badge <~? badge_or s b "start" ;;
  text <~? js_get timerStart "text" ;;
  __text <~?
    (if is_object_text text then
       match text with
       | VArr l => Ok (VStr (Array_join " " l))
       | _ => Throw TypeError
       end
     else Ok (if truthy text then text else VStr "Initialized timer...")) ;;
  padded <~? value_padEnd __badge 4 ;;
  let report :=
    [ VStr (chalk_apply w __color padded);
      VStr (padEnd (chalk_apply w (__color ++ ["underline"]) label)
                   (_longestLabel s + 22));
      __text ] in
  Ok (Array_join " " ((VStr <$> message) ++ report)).

(** The label [time] goes on with:
    [if (!label) label = `timer_${this._timers.size}`]. *)
Definition effective_label (s : Signale) (label : option string) : string :=
  if no_label label then "timer_" +:+ pretty (Map.size (_timers s))
  else default "" label.

Definition time (w : World) (label : option string) (options : value) : M string :=
  label <~ gets (fun s => effective_label s label) ;;
  apply_options options ;;;
  modify (fun s => set_timers (Map.set (_timers s) label (Date_now w)) s) ;;;
  line <~ (fun s => (s, start_report w s label)) ;;
  _log line ;;;
  ret label.

(** [arr.reduceRight(f)] with no initial value. *)
Definition reduceRight {A : Type} (f : A -> A -> outcome A) (l : list A) : outcome A :=
  match rev l with
  | [] => Throw TypeError
  | x :: ys => foldl (fun acc y => x <~? acc ;; f x y) (Ok x) ys
  end.

(** [x => x.includes('timer_')], on a key or on [null]. *)
Definition is_timer (x : option string) : outcome bool :=
  match x with
  | Some k => Ok (includes k "timer_")
  | None => Throw TypeError
  end.

(** [(x, y) => is(x) ? x : (is(y) ? y : null)] *)
Definition pick (x y : option string) : outcome (option string) :=
  ix <~? is_timer x ;;
  if ix then Ok x
  else iy <~? is_timer y ;; Ok (if iy then y else None).

(** The label [timeEnd] goes on with. *)
Definition resolve_label (s : Signale) (label : option string)
  : outcome (option string) :=
  if no_label label && negb (Map.size (_timers s) =? 0)%nat
  then reduceRight pick (Some <$> Map.keys (_timers s))
  else Ok label.

(** The line [timeEnd] writes. *)
Definition end_report (w : World) (s : Signale) (label : string) (span : Z)
  : outcome string :=
  let message := _meta w s in
  executionTime <~? executionTime span ;;
  let timerEnd := if truthy (end_ (__timers s)) then end_ (__timers s) else VObj ∅ in
  c <~? js_get timerEnd "color" ;;
  let __color := chalk_or w c "red" in
  b <~? js_get timerEnd "badge" ;;
  __badge <~? badge_or s b "pause" ;;
  t <~? js_get timerEnd "time" ;;
  let __executionColor := chalk_or w t "yellow" in
  text <~? js_get timerEnd "text" ;;
  __text <~?
    (if is_object_text text then
       match text with
       | VArr l =>
           Ok (VStr (replace_first_comma (Array_join "," l)
                       (" " +:+ chalk_apply w __executionColor executionTime +:+ " ")))
       | _ => Throw TypeError
       end
     else Ok (if truthy text then text
              else VStr ("Timer run for: "
                         +:+ chalk_apply w __executionColor executionTime))) ;;
  padded <~? value_padEnd __badge 4 ;;
  let report :=
    [ VStr (chalk_apply w __color padded);
      VStr (padEnd (chalk_apply w (__color ++ ["underline"]) label)
                   (_longestLabel s + 22));
      __text ] in
  Ok (Array_join " " ((VStr <$> message) ++ report)).

(** [this._timers.has(label)] holds exactly when [get] finds the start
    time; the label is [null] or [undefined] in the [None] case, which no
    key equals. *)
Definition timeEnd (w : World) (label : option string) : M (option Report.t) :=
  label <~ (fun s => (s, resolve_label s label)) ;;
  tracked <~ gets (fun s => match label with
                            | Some l => Map.get (_timers s) l
                            | None => None
                            end) ;;
  match label, tracked with
  | Some l, Some then_ =>
      let span := timeSpan w then_ in
      modify (fun s => set_timers (Map.delete (_timers s) l) s) ;;;
      line <~ (fun s => (s, end_report w s l span)) ;;
      _log line ;;;
      ret (Some {| Report.label := l; Report.span := span |})
  | _, _ => ret None
  end.

(** ** Instances that can report *)

(** A style record renders when its badge, or else the badge of the
    built-in type, is a string and its text is not an object other than an
    array: the report lines of [time] and [timeEnd] are then composed
    without a [TypeError]. *)
Definition renders (s : Signale) (record : value) (type : string) : bool :=
  match js_get record "badge", js_get record "text" with
  | Ok b, Ok text =>
      match badge_or s b type with
      | Ok (VStr _) =>
          negb (is_object_text text)
          || match text with VArr _ => true | _ => false end
      | _ => false
      end
  | _, _ => false
  end.

Definition timers_ready (s : Signale) : bool :=
  renders s (start (__timers s)) "start"
  && renders s (if truthy (end_ (__timers s)) then end_ (__timers s) else VObj ∅)
             "pause".

(** The style overrides are the only part of the instance the option block
    of [time] writes. *)
Definition only_styles (s s' : Signale) : Prop :=
  s' = set_styles (__timers s') s.





(** ** Rounding the quotient by 1000 *)

(** The significand of [1000] as a binary64 number, [1000 * 2 ^ 43]. *)
Definition m1000 : Z := 8796093022208000.

(** The significand kept from a 53-bit and from a 54-bit quotient. *)
Definition round53 (q : Z) (l : location) : Z := round_nearest_even q l.

Definition round54 (q : Z) (l : location) : Z :=
  let mrs := shr_1 (shr_record_of_loc q l) in
  round_nearest_even (shr_m mrs) (loc_of_shr_record mrs).

(** ** A sample world and instances *)

Module Sample.

Definition builtin : gmap string TypeDesc :=
  list_to_map
    [ ("start", {| badge := Some ">"; color := Some "green"; label := Some "start" |});
      ("pause", {| badge := Some "#"; color := Some "yellow"; label := Some "pause" |});
      ("info", {| badge := Some "i"; color := Some "blue"; label := Some "info" |}) ].

Definition defaults : gmap string value :=
  list_to_map
    [ ("displayScope", VBool true); ("displayBadge", VBool true);
      ("displayDate", VBool false); ("displayFilename", VBool false);
      ("displayLabel", VBool true); ("displayTimestamp", VBool false);
      ("underlineLabel", VBool true); ("underlineMessage", VBool false);
      ("underlinePrefix", VBool false); ("underlineSuffix", VBool false);
      ("uppercaseLabel", VBool false) ].

(** Styles shown as tags around the text. *)
Definition tagged (chain : list string) (text : string) : string :=
  foldr (fun st acc => "<" +:+ st +:+ ">" +:+ acc +:+ "</" +:+ st +:+ ">")
        text chain.

Definition world (clock : Z) : World :=
  {| chalk_has := fun name =>
       existsb (String.eqb name)
               ["green"; "red"; "yellow"; "blue"; "grey"; "underline"];
     chalk_apply := tagged;
     pointerSmall := ">";
     toUpperCase := fun x => x;
     trim := fun x => x;
     Date_now := clock;
     date := "2018-5-1";
     timestamp := "10:00:00";
     filename := Some "app.js";
     packageConfiguration := defaults;
     types := builtin |}.

(** [new Signale()] in that world. *)
Definition fresh : Signale :=
  {| _config := defaults; _customTypes := ∅; _scopeName := ScopeStr "";
     _timers := []; __timers := {| start := VObj ∅; end_ := VObj ∅ |};
     _types := builtin; _stream := []; _longestLabel := 5 |}.

(** An instance showing neither badge nor label. *)
Definition quiet : Signale :=
  set_config (<["displayBadge" := VBool false]>
                (<["displayLabel" := VBool false]> defaults)) fresh.

(** An instance with a custom type that names no colour. *)
Definition colourless : Signale :=
  {| _config := defaults;
     _customTypes := {["note" := {| badge := Some "!"; color := None;
                                    label := Some "note" |}]};
     _scopeName := ScopeStr "";
     _timers := []; __timers := {| start := VObj ∅; end_ := VObj ∅ |};
     _types := <["note" := {| badge := Some "!"; color := None;
                              label := Some "note" |}]> builtin;
     _stream := []; _longestLabel := 5 |}.

(** An instance with the given timers running. *)
Definition running (timers : Map.t) : Signale := set_timers timers fresh.

(** A styling that closes its style before every line break and opens it
    again after, as a terminal styling does to keep a style from running
    over the rest of the line. *)
Definition by_line (chain : list string) (text : string) : string :=
  foldr (fun st acc =>
           "<" +:+ st +:+ ">"
           +:+ join ("</" +:+ st +:+ ">" +:+ String newline ("<" +:+ st +:+ ">"))
                    (split_lines acc)
           +:+ "</" +:+ st +:+ ">")
        text chain.

Definition by_line_world : World :=
  {| chalk_has := chalk_has (world 0);
     chalk_apply := by_line;
     pointerSmall := ">";
     toUpperCase := fun x => x;
     trim := fun x => x;
     Date_now := 0;
     date := "2018-5-1";
     timestamp := "10:00:00";
     filename := Some "app.js";
     packageConfiguration := defaults;
     types := builtin |}.

(** An instance that underlines the message. *)
Definition underlining : Signale :=
  set_config (<["underlineMessage" := VBool true]> defaults) fresh.

(** Options that replace the start record and give a text beside it:
    [{start: {color: 'red', text: 'a'}, text: 'b'}]. *)
Definition restyle : gmap string value :=
  {["start" := VObj {["color" := VStr "red"; "text" := VStr "a"]};
    "text" := VStr "b"]}.

End Sample.

(** ** A timer started and stopped once *)


(** ** Worlds and runs of the examples on configuration *)

(** A project whose package configuration shows the date. *)
Definition dated_world (clock : Z) : World :=
  {| chalk_has := chalk_has (Sample.world clock);
     chalk_apply := chalk_apply (Sample.world clock);
     pointerSmall := pointerSmall (Sample.world clock);
     toUpperCase := toUpperCase (Sample.world clock);
     trim := trim (Sample.world clock);
     Date_now := clock;
     date := date (Sample.world clock);
     timestamp := timestamp (Sample.world clock);
     filename := filename (Sample.world clock);
     packageConfiguration := <["displayDate" := VBool true]> Sample.defaults;
     types := Sample.builtin |}.


(** ** The scope of an instance *)

Definition set_scopeName (sc : scope) (s : Signale) : Signale :=
  {| _config := _config s; _customTypes := _customTypes s; _scopeName := sc;
     _timers := _timers s; __timers := __timers s; _types := _types s;
     _stream := _stream s; _longestLabel := _longestLabel s |}.

(** [get scopeName()] *)
Definition scopeName (s : Signale) : scope := _scopeName s.

(** [unscope() { this._scopeName = ''; }] *)
Definition unscope : M unit := modify (set_scopeName (ScopeStr "")).


(** An instance whose scope was given as the single empty name, as
    [scope('')] passes it on. *)
Definition blank_scoped : Signale := set_scopeName (ScopeArr [""]) Sample.fresh.

(** The instance left by [time('x', {text: null})], a call that throws
    while composing its report: both override records have the text
    [null]. *)
Definition stuck : Signale :=
  fst (time (Sample.world 1) (Some "x") (VObj {["text" := VNull]}) Sample.fresh).

(** ** When a message can be composed *)



(** ** End texts without the elapsed time *)

(** An end text that leaves no place for the elapsed time: a primitive
    that counts as true, printed as it is, or an array whose elements
    joined by commas hold no comma to be replaced. *)
Definition hides_time (text : value) : bool :=
  match text with
  | VArr l => negb (includes (Array_join "," l) ",")
  | _ => negb (is_object_text text) && truthy text
  end.

(** * Properties *)

(** ** Running the definitions *)

(** The sample instance is the one the constructor builds. *)
Lemma Sample_fresh_is_new : Signale_new (Sample.world 0) = Ok Sample.fresh.
Proof. vm_compute. reflexivity. Qed.

Example info_line :
  _buildSignale (Sample.world 0) Sample.fresh (types_get Sample.fresh "info")
    [VStr "hello"; VNum 3]
  = Ok "<blue>i </blue> <blue><underline>info</underline></blue> hello 3".
Proof. vm_compute. reflexivity. Qed.

Example structured_line :
  _buildSignale (Sample.world 0) Sample.fresh (types_get Sample.fresh "info")
    [VObj {["message" := VStr "m"; "prefix" := VStr "p"; "suffix" := VStr "s"]}]
  = Ok "p <blue>i </blue> <blue><underline>info</underline></blue> m s".
Proof. vm_compute. reflexivity. Qed.

Example start_line :
  _stream (fst (time (Sample.world 10) (Some "x") VUndef Sample.fresh))
  = ["<green>>   </green> <green><underline>x</underline></green> Initialized timer..."
     +:+ String newline ""].
Proof. vm_compute. reflexivity. Qed.

Example end_line :
  _stream (fst (timeEnd (Sample.world 2510) (Some "x")
                  (Sample.running [("x", 10)])))
  = ["<red>#   </red> <red><underline>x</underline></red> Timer run for: <yellow>2.50s</yellow>"
     +:+ String newline ""].
Proof. vm_compute. reflexivity. Qed.

(** A tie between two hundredths is settled by the binary64 quotient. *)
Example ties :
  executionTime 1005 = Ok "1.00s" /\ executionTime 1015 = Ok "1.01s"
  /\ executionTime 59999 = Ok "60.00s".
Proof. repeat split; vm_compute; reflexivity. Qed.

(** ** The timer map *)

Module MapFacts.

Lemma has_get (m : Map.t) (k : string) :
  Map.has m k = true <-> exists v, Map.get m k = Some v.
Proof.
  induction m as [|[k' v'] m IH]; simpl.
  - split; [discriminate | intros [v Hv]; discriminate].
  - destruct (String.eqb k' k); simpl.
    + split; eauto.
    + exact IH.
Qed.

Lemma has_false_get (m : Map.t) (k : string) :
  Map.has m k = false <-> Map.get m k = None.
Proof.
  induction m as [|[k' v'] m IH]; simpl.
  - split; reflexivity.
  - destruct (String.eqb k' k); simpl.
    + split; discriminate.
    + exact IH.
Qed.


Lemma get_set_ne (m : Map.t) (k k' : string) (v : Z) :
  k <> k' -> Map.get (Map.set m k v) k' = Map.get m k'.
Proof.
  intros Hne. induction m as [|[k0 v0] m IH]; simpl.
  - destruct (String.eqb_spec k k'); [contradiction | reflexivity].
  - destruct (String.eqb_spec k0 k) as [->|Hk]; simpl.
    + destruct (String.eqb_spec k k'); [contradiction | reflexivity].
    + now rewrite IH.
Qed.

Lemma get_delete_eq (m : Map.t) (k : string) :
  Map.get (Map.delete m k) k = None.
Proof.
  induction m as [|[k' v'] m IH]; simpl; [reflexivity|].
  destruct (String.eqb k' k) eqn:E; simpl; [exact IH|].
  now rewrite E.
Qed.

Lemma get_delete_ne (m : Map.t) (k k' : string) :
  k <> k' -> Map.get (Map.delete m k) k' = Map.get m k'.
Proof.
  intros Hne. induction m as [|[k0 v0] m IH]; simpl; [reflexivity|].
  destruct (String.eqb_spec k0 k) as [->|Hk]; simpl.
  - destruct (String.eqb_spec k k'); [contradiction | exact IH].
  - now rewrite IH.
Qed.

Lemma has_eq_of_get (m m' : Map.t) (k : string) :
  Map.get m k = Map.get m' k -> Map.has m k = Map.has m' k.
Proof.
  intros E. destruct (Map.has m' k) eqn:H'.
  - apply has_get. apply has_get in H'. now rewrite E.
  - apply has_false_get. apply has_false_get in H'. now rewrite E.
Qed.

End MapFacts.

Lemma no_label_Some (l : string) : l <> "" -> no_label (Some l) = false.
Proof. intros H. simpl. now apply String.eqb_neq. Qed.

(** [timeEnd] on a label that is given and not tracked. *)
Lemma timeEnd_untracked (w : World) (s : Signale) (l : string) :
  l <> "" ->
  Map.has (_timers s) l = false ->
  timeEnd w (Some l) s = (s, Ok None).
Proof.
  intros Hl Hun. apply MapFacts.has_false_get in Hun.
  unfold timeEnd, bind, gets, resolve_label.
  rewrite (no_label_Some l Hl). simpl. now rewrite Hun.
Qed.

(** ** What a call leaves untouched *)

Lemma only_styles_refl (s : Signale) : only_styles s s.
Proof. destruct s; reflexivity. Qed.

Lemma only_styles_trans (s1 s2 s3 : Signale) :
  only_styles s1 s2 -> only_styles s2 s3 -> only_styles s1 s3.
Proof.
  unfold only_styles. intros H12 H23. rewrite H23 at 1. rewrite H12 at 1.
  reflexivity.
Qed.

Lemma only_styles_set (s : Signale) (t : TimerStyles) :
  only_styles s (set_styles t s).
Proof. reflexivity. Qed.

Lemma set_style_key_only (key : string) (v : value) (s : Signale) :
  only_styles s (fst (set_style_key key v s)).
Proof.
  unfold set_style_key, bind, gets, lift, modify.
  destruct (js_set (start (__timers s)) key v) as [st'| |]; simpl;
    try apply only_styles_refl.
  destruct (js_set (end_ (__timers s)) key v) as [en'| |]; simpl;
    reflexivity.
Qed.

Lemma forEach_only {A : Type} (f : A -> M unit) (l : list A) :
  (forall x s, only_styles s (fst (f x s))) ->
  forall s, only_styles s (fst (forEach l f s)).
Proof.
  intros Hf. induction l as [|x l IH]; intros s; simpl.
  - apply only_styles_refl.
  - unfold bind. specialize (Hf x s).
    destruct (f x s) as [s' [[]| |]]; simpl in *; try exact Hf.
    eapply only_styles_trans; [exact Hf | apply IH].
Qed.

Lemma apply_options_only (options : value) (s : Signale) :
  only_styles s (fst (apply_options options s)).
Proof.
  unfold apply_options.
  destruct (truthy options); [|apply only_styles_refl].
  unfold bind at 1, lift at 1.
  destruct (js_get options "both") as [both| |]; try apply only_styles_refl.
  destruct (truthy both).
  - apply forEach_only. intros [key v] s'. apply set_style_key_only.
  - unfold bind at 1, lift at 1.
    destruct (js_get options "start") as [st| |]; try apply only_styles_refl.
    unfold bind at 1.
    assert (exists s1, (if truthy st
              then modify (fun s0 => set_styles {| start := st; end_ := end_ (__timers s0) |} s0)
              else ret tt) s = (s1, Ok tt) /\ only_styles s s1) as (s1 & -> & H1).
    { destruct (truthy st); eexists; split; try reflexivity.
      apply only_styles_refl. }
    unfold bind at 1, lift at 1.
    destruct (js_get options "end") as [en| |]; try exact H1.
    unfold bind at 1.
    assert (exists s2, (if truthy en
              then modify (fun s0 => set_styles {| start := start (__timers s0); end_ := en |} s0)
              else ret tt) s1 = (s2, Ok tt) /\ only_styles s1 s2) as (s2 & -> & H2).
    { destruct (truthy en); eexists; split; try reflexivity.
      apply only_styles_refl. }
    eapply only_styles_trans; [exact H1|].
    eapply only_styles_trans; [exact H2|].
    apply forEach_only. intros [key v] s'. apply set_style_key_only.
Qed.

Lemma only_styles_timers (s s' : Signale) :
  only_styles s s' -> _timers s' = _timers s.
Proof. intros ->. reflexivity. Qed.

(** The timers after [time]: unchanged when the option block threw, else
    the effective label set to the current time. *)
Lemma time_timers (w : World) (label : option string) (options : value)
    (s : Signale) :
  _timers (fst (time w label options s)) = _timers s \/
  _timers (fst (time w label options s))
  = Map.set (_timers s) (effective_label s label) (Date_now w).
Proof.
  pose proof (apply_options_only options s) as Ho.
  unfold time, bind, gets, modify, _log, ret, effective_label. simpl.
  destruct (apply_options options s) as [s1 [[]| |]]; simpl in Ho;
    apply only_styles_timers in Ho; try (left; exact Ho).
  right.
  match goal with
  | |- context [start_report ?a ?b ?c] => destruct (start_report a b c)
  end; simpl; now rewrite Ho.
Qed.

Lemma timeEnd_timers (w : World) (label : option string) (s : Signale) :
  _timers (fst (timeEnd w label s)) = _timers s \/
  exists l, resolve_label s label = Ok (Some l) /\
            _timers (fst (timeEnd w label s)) = Map.delete (_timers s) l.
Proof.
  unfold timeEnd, bind, gets, modify, _log, ret. simpl.
  destruct (resolve_label s label) as [[l|]| |]; try (left; reflexivity).
  destruct (Map.get (_timers s) l); [|left; reflexivity].
  right. exists l. split; [reflexivity|].
  match goal with
  | |- context [end_report ?a ?b ?c ?d] => destruct (end_report a b c d)
  end; reflexivity.
Qed.

Lemma resolve_label_Some (s : Signale) (l : string) :
  l <> "" -> resolve_label s (Some l) = Ok (Some l).
Proof. intros H. unfold resolve_label. now rewrite (no_label_Some l H). Qed.

(** C10 (amended): for a non-empty label [l] and any other label [l'],
    [time(l)] and [timeEnd(l)] leave the start time and the presence of [l']
    in the timer map as they were. *)
Theorem timers_frame (w : World) (s : Signale) (l l' : string) (options : value) :
  l <> "" -> l <> l' ->
  Map.get (_timers (fst (time w (Some l) options s))) l' = Map.get (_timers s) l'
  /\ Map.has (_timers (fst (time w (Some l) options s))) l' = Map.has (_timers s) l'
  /\ Map.get (_timers (fst (timeEnd w (Some l) s))) l' = Map.get (_timers s) l'
  /\ Map.has (_timers (fst (timeEnd w (Some l) s))) l' = Map.has (_timers s) l'.
Proof.
  intros Hl Hne.
  assert (Map.get (_timers (fst (time w (Some l) options s))) l' = Map.get (_timers s) l') as H1.
  { destruct (time_timers w (Some l) options s) as [-> | ->]; [reflexivity|].
    unfold effective_label. rewrite (no_label_Some l Hl). simpl.
    now apply MapFacts.get_set_ne. }
  assert (Map.get (_timers (fst (timeEnd w (Some l) s))) l' = Map.get (_timers s) l') as H2.
  { destruct (timeEnd_timers w (Some l) s) as [-> | (l0 & Hr & ->)]; [reflexivity|].
    rewrite (resolve_label_Some s l Hl) in Hr. injection Hr as <-.
    now apply MapFacts.get_delete_ne. }
  repeat split; auto using MapFacts.has_eq_of_get.
Qed.

(** ** Binary64 division by 1000 *)

Lemma digits2_pos_bounds (p : positive) :
  2 ^ (Z.pos (digits2_pos p) - 1) <= Z.pos p < 2 ^ Z.pos (digits2_pos p).
Proof.
  induction p as [p IH | p IH |]; simpl digits2_pos.
  - rewrite Pos2Z.inj_succ. replace (Z.succ (Z.pos (digits2_pos p)) - 1) with (Z.pos (digits2_pos p)) by lia.
    rewrite Z.pow_succ_r by lia.
    assert (2 ^ Z.pos (digits2_pos p) = 2 * 2 ^ (Z.pos (digits2_pos p) - 1)).
    { rewrite <- Z.pow_succ_r by lia. f_equal. lia. }
    lia.
  - rewrite Pos2Z.inj_succ. replace (Z.succ (Z.pos (digits2_pos p)) - 1) with (Z.pos (digits2_pos p)) by lia.
    rewrite Z.pow_succ_r by lia.
    assert (2 ^ Z.pos (digits2_pos p) = 2 * 2 ^ (Z.pos (digits2_pos p) - 1)).
    { rewrite <- Z.pow_succ_r by lia. f_equal. lia. }
    lia.
  - simpl. lia.
Qed.

Lemma Zdigits2_unique (z k : Z) :
  0 < k -> 2 ^ (k - 1) <= z < 2 ^ k -> Zdigits2 z = k.
Proof.
  intros Hk [Hlo Hhi].
  assert (0 < z) by (pose proof (Z.pow_pos_nonneg 2 (k - 1)); lia).
  destruct z as [|p|p]; try lia.
  simpl. pose proof (digits2_pos_bounds p) as [B1 B2].
  set (d := Z.pos (digits2_pos p)) in *.
  destruct (Z.lt_trichotomy d k) as [L|[E|G]]; auto.
  - assert (2 ^ d <= 2 ^ (k - 1)) by (apply Z.pow_le_mono_r; lia). lia.
  - assert (2 ^ k <= 2 ^ (d - 1)) by (apply Z.pow_le_mono_r; lia). lia.
Qed.

Lemma iter_xO (k p : positive) : Z.pos (Pos.iter xO p k) = Z.pos p * 2 ^ Z.pos k.
Proof.
  revert p. induction k using Pos.peano_ind; intros p.
  - simpl. lia.
  - rewrite Pos.iter_succ. rewrite Pos2Z.inj_succ, Z.pow_succ_r by lia.
    rewrite Pos2Z.inj_xO, IHk. lia.
Qed.

Ltac pow2 :=
  change (2 ^ 52) with 4503599627370496 in *;
  change (2 ^ 53) with 9007199254740992 in *;
  change (2 ^ 54) with 18014398509481984 in *.


Lemma shr_fexp_exact (m e : Z) (l : location) (k : Z) :
  0 < k -> 2 ^ (k - 1) <= m < 2 ^ k -> -1074 <= k + e - 53 ->
  shr_fexp prec emax m e l = shr (shr_record_of_loc m l) e (k - 53).
Proof.
  intros Hk Hm He. unfold shr_fexp.
  rewrite (Zdigits2_unique m k Hk Hm).
  f_equal. unfold fexp, emin, prec, emax. lia.
Qed.


Lemma round_nearest_even_bounds (q : Z) (l : location) :
  q <= round_nearest_even q l <= q + 1.
Proof.
  unfold round_nearest_even. destruct l as [|[]]; try lia.
  destruct (Z.even q); lia.
Qed.

Lemma finish_round (m e : Z) :
  2 ^ 52 <= m <= 2 ^ 53 -> -1074 <= e <= 960 ->
  (let '(mrs, e'') := shr_fexp prec emax m e loc_Exact in
   match shr_m mrs with
   | 0 => S754_zero false
   | Z.pos p => if e'' <=? emax - prec then S754_finite false p e'' else S754_infinity false
   | Z.neg _ => S754_nan
   end) =
  if m <? 2 ^ 53 then S754_finite false (Z.to_pos m) e
  else S754_finite false (Z.to_pos (2 ^ 52)) (e + 1).
Proof.
  intros Hm He.
  destruct (Z.ltb_spec m (2 ^ 53)) as [Hlt | Hge].
  - rewrite (shr_fexp_exact m e loc_Exact 53) by lia.
    replace (53 - 53) with 0 by lia. cbn [shr shr_record_of_loc shr_m].
    destruct m as [|p|p]; try lia.
    replace (e <=? emax - prec) with true; [reflexivity|].
    symmetry. apply Z.leb_le. unfold emax, prec. lia.
  - assert (m = 2 ^ 53) by lia. subst m.
    rewrite (shr_fexp_exact (2 ^ 53) e loc_Exact 54) by lia.
    replace (54 - 53) with 1 by lia.
    vm_compute shr_record_of_loc.
    unfold shr. cbn [iter_pos shr_1 shr_m].
    change (emax - prec) with 971.
    destruct (Z.leb_spec (e + 1) 971); [reflexivity | lia].
Qed.

Lemma binary_round_aux_53 (q e : Z) (l : location) :
  2 ^ 52 <= q < 2 ^ 53 -> -1074 <= e <= 900 ->
  binary_round_aux prec emax false q e l =
  if round53 q l <? 2 ^ 53 then S754_finite false (Z.to_pos (round53 q l)) e
  else S754_finite false (Z.to_pos (2 ^ 52)) (e + 1).
Proof.
  intros Hq He. unfold binary_round_aux.
  rewrite (shr_fexp_exact q e l 53) by lia.
  replace (53 - 53) with 0 by lia. cbn [shr].
  replace (shr_m (shr_record_of_loc q l)) with q by (destruct l as [|[]]; reflexivity).
  replace (loc_of_shr_record (shr_record_of_loc q l)) with l by (destruct l as [|[]]; reflexivity).
  pose proof (round_nearest_even_bounds q l).
  apply finish_round; unfold round53 in *; lia.
Qed.

Lemma shr_1_m (q : Z) (r s : bool) :
  0 <= q -> shr_m (shr_1 {| shr_m := q; shr_r := r; shr_s := s |}) = q / 2.
Proof.
  intros Hq. destruct q as [|p|p]; try lia; [reflexivity|].
  destruct p; cbn [shr_1 shr_m].
  - rewrite Pos2Z.inj_xI. Z.to_euclidean_division_equations. lia.
  - rewrite Pos2Z.inj_xO. Z.to_euclidean_division_equations. lia.
  - reflexivity.
Qed.

Lemma binary_round_aux_54 (q e : Z) (l : location) :
  2 ^ 53 <= q < 2 ^ 54 -> -1074 <= e <= 900 ->
  binary_round_aux prec emax false q e l =
  if round54 q l <? 2 ^ 53 then S754_finite false (Z.to_pos (round54 q l)) (e + 1)
  else S754_finite false (Z.to_pos (2 ^ 52)) (e + 2).
Proof.
  intros Hq He. unfold binary_round_aux.
  rewrite (shr_fexp_exact q e l 54) by lia.
  replace (54 - 53) with 1 by lia. unfold shr at 1. cbn [iter_pos].
  fold (round54 q l).
  assert (q / 2 <= round54 q l <= q / 2 + 1) as Hb.
  { unfold round54.
    pose proof (round_nearest_even_bounds
      (shr_m (shr_1 (shr_record_of_loc q l)))
      (loc_of_shr_record (shr_1 (shr_record_of_loc q l)))) as Hr.
    set (R := round_nearest_even _ _) in *.
    assert (shr_m (shr_1 (shr_record_of_loc q l)) = q / 2) as E
      by (destruct l as [|[]]; apply shr_1_m; lia).
    rewrite E in Hr. exact Hr. }
  assert (2 ^ 52 <= q / 2 < 2 ^ 53).
  { pow2. Z.to_euclidean_division_equations. lia. }
  replace (e + 2) with (e + 1 + 1) by lia.
  apply finish_round; pow2; lia.
Qed.


Lemma Zdigits2_pos_bounds (n : Z) :
  0 < n -> 0 < Zdigits2 n /\ 2 ^ (Zdigits2 n - 1) <= n < 2 ^ Zdigits2 n.
Proof.
  intros Hn. destruct n as [|p|p]; try lia. simpl.
  split; [lia | apply digits2_pos_bounds].
Qed.

Lemma pow2_split (a b : Z) : 0 <= a -> 0 <= b -> 2 ^ (a + b) = 2 ^ a * 2 ^ b.
Proof. intros. apply Z.pow_add_r; lia. Qed.

Lemma Number_of_Z_finite (n : Z) :
  0 < n < 2 ^ 53 ->
  Number_of_Z n =
  S754_finite false (Z.to_pos (n * 2 ^ (53 - Zdigits2 n))) (Zdigits2 n - 53).
Proof.
  intros Hn.
  destruct (Zdigits2_pos_bounds n) as [Hd [Hlo Hhi]]; [lia|].
  assert (Zdigits2 n <= 53) as Hd53.
  { destruct (Z.le_gt_cases (Zdigits2 n) 53) as [|G]; [assumption|].
    assert (2 ^ 53 <= 2 ^ (Zdigits2 n - 1)) by (apply Z.pow_le_mono_r; lia). lia. }
  destruct n as [|p|p]; try lia.
  unfold Number_of_Z, binary_normalize, binary_round.
  change (Z.pos (digits2_pos p)) with (Zdigits2 (Z.pos p)) in *.
  set (d := Zdigits2 (Z.pos p)) in *.
  replace (fexp prec emax (d + 0)) with (d - 53)
    by (unfold fexp, emin, prec, emax; lia).
  assert (2 ^ 52 <= Z.pos p * 2 ^ (53 - d) < 2 ^ 53) as Hm.
  { assert (2 ^ 52 = 2 ^ (d - 1) * 2 ^ (53 - d)) as E52
      by (rewrite <- pow2_split by lia; f_equal; lia).
    assert (2 ^ 53 = 2 ^ d * 2 ^ (53 - d)) as E53
      by (rewrite <- pow2_split by lia; f_equal; lia).
    assert (0 < 2 ^ (53 - d)) by (apply Z.pow_pos_nonneg; lia).
    rewrite E52, E53.
    split; [apply Z.mul_le_mono_nonneg_r | apply Z.mul_lt_mono_pos_r]; lia. }
  unfold shl_align.
  destruct (d - 53 - 0) as [|k|k] eqn:Ek; try lia.
  - replace (53 - d) with 0 in * by lia. rewrite Z.mul_1_r in *.
    rewrite binary_round_aux_53 by lia.
    unfold round53, round_nearest_even.
    destruct (Z.ltb_spec (Z.pos p) (2 ^ 53)); [|lia].
    f_equal. lia.
  - assert (Z.pos (Pos.iter xO p k) = Z.pos p * 2 ^ (53 - d)) as Ei.
    { rewrite iter_xO. f_equal. f_equal. lia. }
    rewrite Ei.
    rewrite binary_round_aux_53 by lia.
    unfold round53, round_nearest_even.
    destruct (Z.ltb_spec (Z.pos p * 2 ^ (53 - d)) (2 ^ 53)); [|lia].
    reflexivity.
Qed.


Lemma Number_of_1000 : Number_of_Z 1000 = S754_finite false (Z.to_pos m1000) (-43).
Proof. reflexivity. Qed.

Lemma div_eucl_pair (a b : Z) : Z.div_eucl a b = (a / b, a mod b).
Proof. unfold Z.div, Z.modulo. destruct (Z.div_eucl a b). reflexivity. Qed.

Lemma SFdiv_core_53 (m1 e1 : Z) :
  2 ^ 52 <= m1 < 2 ^ 53 -> -43 <= e1 <= 0 ->
  SFdiv_core_binary prec emax m1 e1 m1000 (-43) =
  (m1 * 2 ^ 53 / m1000, e1 - 10, new_location m1000 ((m1 * 2 ^ 53) mod m1000)).
Proof.
  intros Hm He. unfold SFdiv_core_binary.
  rewrite (Zdigits2_unique m1 53) by lia.
  replace (Zdigits2 m1000) with 53 by reflexivity.
  replace (Z.min (fexp prec emax (53 + e1 - (53 + -43))) (e1 - -43)) with (e1 - 10)
    by (unfold fexp, emin, prec, emax; lia).
  replace (e1 - -43 - (e1 - 10)) with 53 by lia.
  rewrite Z.shiftl_mul_pow2 by lia.
  rewrite div_eucl_pair. reflexivity.
Qed.

Lemma loc_1000 (R : Z) :
  new_location m1000 R =
  if R =? 0 then loc_Exact else loc_Inexact (2 * R ?= m1000).
Proof. reflexivity. Qed.

Lemma round53_near (q R : Z) :
  0 <= R < m1000 ->
  - m1000 <= 2 * (round53 q (new_location m1000 R) * m1000) - 2 * (q * m1000 + R)
  <= m1000.
Proof.
  intros HR. rewrite loc_1000. unfold round53, round_nearest_even, m1000 in *.
  destruct (Z.eqb_spec R 0); [lia|].
  destruct (Z.compare_spec (2 * R) 8796093022208000); try lia.
  destruct (Z.even q); lia.
Qed.

Lemma shr_1_record (q : Z) (r s : bool) :
  0 <= q ->
  shr_1 {| shr_m := q; shr_r := r; shr_s := s |} =
  {| shr_m := q / 2; shr_r := Z.odd q; shr_s := r || s |}.
Proof.
  intros Hq. destruct q as [|p|p]; try lia; [reflexivity|].
  destruct p; cbn [shr_1 Z.odd]; f_equal.
  - rewrite Pos2Z.inj_xI. Z.to_euclidean_division_equations. lia.
  - rewrite Pos2Z.inj_xO. Z.to_euclidean_division_equations. lia.
Qed.

Lemma round54_near (q R : Z) :
  0 <= q -> 0 <= R < m1000 ->
  - m1000 <= 2 * (round54 q (new_location m1000 R)) * m1000 - (q * m1000 + R)
  <= m1000.
Proof.
  intros Hq HR. rewrite loc_1000. unfold round54.
  pose proof (Zmod_odd q) as Ho.
  assert (q = 2 * (q / 2) + q mod 2) as Eq by (apply Z.div_mod; lia).
  set (h := q / 2) in *.
  destruct (Z.eqb_spec R 0) as [E0|N0].
  - cbn [shr_record_of_loc]. rewrite shr_1_record by lia.
    fold h. cbn [shr_m loc_of_shr_record orb].
    unfold round_nearest_even, m1000 in *.
    destruct (Z.odd q); cbn [loc_of_shr_record]; [destruct (Z.even h)|]; lia.
  - destruct (2 * R ?= m1000); cbn [shr_record_of_loc];
      rewrite shr_1_record by lia; fold h;
      cbn [shr_m loc_of_shr_record orb];
      unfold round_nearest_even, m1000 in *;
      destruct (Z.odd q); cbn [loc_of_shr_record orb]; lia.
Qed.

Lemma Number_div_1000 (n : Z) :
  1000 <= n < 2 ^ 53 ->
  exists mf ef t : Z,
    Number_div (Number_of_Z n) (Number_of_Z 1000)
    = S754_finite false (Z.to_pos mf) ef
    /\ 0 < mf
    /\ (t = 0 \/ t = 1 \/ t = 2)
    /\ ef = Zdigits2 n - 63 + t
    /\ 10 <= Zdigits2 n <= 53
    /\ -1000 <= 1000 * (mf * 2 ^ t) - n * 2 ^ (53 - Zdigits2 n) * 1024 <= 1000.
Proof.
  intros Hn.
  destruct (Zdigits2_pos_bounds n) as [Hd [Hlo Hhi]]; [lia|].
  set (d := Zdigits2 n) in *.
  assert (d <= 53) as Hd53.
  { destruct (Z.le_gt_cases d 53) as [|G]; [assumption|].
    assert (2 ^ 53 <= 2 ^ (d - 1)) by (apply Z.pow_le_mono_r; lia). lia. }
  assert (10 <= d) as Hd10.
  { destruct (Z.le_gt_cases 10 d) as [|G]; [assumption|].
    assert (2 ^ d <= 2 ^ 9) by (apply Z.pow_le_mono_r; lia).
    change (2 ^ 9) with 512 in *. lia. }
  rewrite Number_of_Z_finite by lia. rewrite Number_of_1000. fold d.
  set (m1 := n * 2 ^ (53 - d)).
  assert (2 ^ 52 <= m1 < 2 ^ 53) as Hm1.
  { assert (2 ^ 52 = 2 ^ (d - 1) * 2 ^ (53 - d)) as E52
      by (rewrite <- pow2_split by lia; f_equal; lia).
    assert (2 ^ 53 = 2 ^ d * 2 ^ (53 - d)) as E53
      by (rewrite <- pow2_split by lia; f_equal; lia).
    assert (0 < 2 ^ (53 - d)) by (apply Z.pow_pos_nonneg; lia).
    rewrite E52, E53. unfold m1.
    split; [apply Z.mul_le_mono_nonneg_r | apply Z.mul_lt_mono_pos_r]; lia. }
  unfold Number_div, SFdiv.
  rewrite Z2Pos.id by (pow2; lia).
  change (Z.pos (Z.to_pos m1000)) with m1000.
  rewrite SFdiv_core_53 by lia.
  cbn [xorb].
  set (A := m1 * 2 ^ 53).
  assert (A = A / m1000 * m1000 + A mod m1000 /\ 0 <= A mod m1000 < m1000) as [EA HR].
  { split; [rewrite Z.mul_comm; apply Z.div_mod; discriminate
           | apply Z.mod_pos_bound; reflexivity]. }
  set (q := A / m1000) in *. set (R := A mod m1000) in *.
  assert (2 ^ 52 <= q < 2 ^ 54) as Hq.
  { unfold A in EA. pow2. unfold m1000 in *. lia. }
  destruct (Z.lt_ge_cases q (2 ^ 53)) as [Hlt | Hge].
  - rewrite binary_round_aux_53 by lia.
    pose proof (round53_near q R HR) as Hnear.
    pose proof (round_nearest_even_bounds q (new_location m1000 R)) as Hb.
    fold (round53 q (new_location m1000 R)) in Hb.
    set (m := round53 q (new_location m1000 R)) in *.
    clearbody m q R. unfold A, m1000 in *. clear A. pow2.
    destruct (Z.ltb_spec m 9007199254740992) as [Hm | Hm].
    + exists m, (d - 53 - 10), 0. change (2 ^ 0) with 1.
      repeat split; lia.
    + exists 4503599627370496, (d - 53 - 10 + 1), 1. change (2 ^ 1) with 2.
      repeat split; lia.
  - rewrite binary_round_aux_54 by lia.
    pose proof (round54_near q R ltac:(pow2; lia) HR) as Hnear.
    assert (q / 2 <= round54 q (new_location m1000 R) <= q / 2 + 1) as Hb.
    { unfold round54.
      pose proof (round_nearest_even_bounds
        (shr_m (shr_1 (shr_record_of_loc q (new_location m1000 R))))
        (loc_of_shr_record (shr_1 (shr_record_of_loc q (new_location m1000 R))))) as Hr.
      set (X := round_nearest_even _ _) in *.
      assert (shr_m (shr_1 (shr_record_of_loc q (new_location m1000 R))) = q / 2) as E
        by (destruct (new_location m1000 R) as [|[]]; apply shr_1_m; pow2; lia).
      rewrite E in Hr. exact Hr. }
    set (m := round54 q (new_location m1000 R)) in *.
    assert (q = 2 * (q / 2) + q mod 2 /\ 0 <= q mod 2 < 2) as [Eq2 Hq2]
      by (split; [apply Z.div_mod; lia | apply Z.mod_pos_bound; lia]).
    set (h := q / 2) in *. set (b := q mod 2) in *.
    clearbody m q R h b. unfold A, m1000 in *. clear A. pow2.
    destruct (Z.ltb_spec m 9007199254740992) as [Hm | Hm].
    + exists m, (d - 53 - 10 + 1), 1. change (2 ^ 1) with 2.
      repeat split; lia.
    + exists 4503599627370496, (d - 53 - 10 + 2), 2. change (2 ^ 2) with 4.
      repeat split; lia.
Qed.

(** ** Elapsed time as text *)

Lemma executionTime_millis (n : Z) :
  n < 1000 -> executionTime n = Ok (pretty n +:+ "ms").
Proof.
  intros Hn. unfold executionTime.
  destruct (Z.ltb_spec n 1000); [reflexivity | lia].
Qed.

Lemma executionTime_seconds (n : Z) :
  1000 <= n < 2 ^ 53 ->
  exists k : Z,
    executionTime n
    = Ok (two_decimals k +:+ "s")
    /\ -5 <= 10 * k - n <= 5.
Proof.
  intros Hn.
  destruct (Number_div_1000 n Hn) as (mf & ef & t & Hdiv & Hmf & Ht & Hef & Hd & Hnear).
  set (d := Zdigits2 n) in *.
  destruct (Zdigits2_pos_bounds n) as [_ [_ Hhi]]; [lia|]. fold d in Hhi.
  set (p' := 2 ^ (- ef)).
  set (P := 2 ^ (63 - d)).
  assert (0 < p') as Hp' by (apply Z.pow_pos_nonneg; lia).
  assert (P = p' * 2 ^ t) as HP.
  { unfold P, p'. rewrite <- pow2_split by lia. f_equal. lia. }
  assert (2 ^ (53 - d) * 1024 = P) as HP1024.
  { unfold P. change 1024 with (2 ^ 10). rewrite <- pow2_split by lia. f_equal. lia. }
  assert (1024 <= P) as HPlo.
  { unfold P. change 1024 with (2 ^ 10). apply Z.pow_le_mono_r; lia. }
  assert (n * P < 2 ^ 53 * 1024) as HnP.
  { assert (2 ^ 53 * 1024 = 2 ^ d * P) as ->.
    { unfold P. change 1024 with (2 ^ 10). rewrite <- !pow2_split by lia. f_equal. lia. }
    apply Z.mul_lt_mono_pos_r; lia. }
  replace (n * 2 ^ (53 - d) * 1024) with (n * P) in Hnear by (rewrite <- HP1024; ring).
  exists ((200 * mf + p') / (2 * p')).
  split.
  - unfold executionTime.
    destruct (Z.ltb_spec n 1000); [lia|].
    rewrite Hdiv. unfold obind, toFixed2, at_least_1e21, hundredths.
    rewrite Z2Pos.id by lia.
    destruct (Z.leb_spec 0 ef); [lia|].
    replace (2 ^ (1 - ef)) with (2 * p')
      by (unfold p'; replace (1 - ef) with (1 + - ef) by lia;
          rewrite pow2_split by lia; reflexivity).
    fold p'.
    destruct (Z.leb_spec (10 ^ 21 * p') mf) as [Hbig|]; [|reflexivity].
    exfalso.
    change (10 ^ 21) with 1000000000000000000000 in Hbig.
    clearbody P p'. clear Hdiv. pow2.
    destruct Ht as [-> | [-> | ->]];
      [change (2 ^ 0) with 1 in * | change (2 ^ 1) with 2 in *
       | change (2 ^ 2) with 4 in *]; lia.
  - assert (2 * p' * ((200 * mf + p') / (2 * p')) <= 200 * mf + p'
            < 2 * p' * ((200 * mf + p') / (2 * p')) + 2 * p') as Hk.
    { pose proof (Z.mul_div_le (200 * mf + p') (2 * p') ltac:(lia)).
      pose proof (Z.mul_succ_div_gt (200 * mf + p') (2 * p') ltac:(lia)).
      lia. }
    set (k := (200 * mf + p') / (2 * p')) in *. clearbody k.
    assert (P * (10 * k - n) < P * 6 /\ P * (n - 10 * k) < P * 6) as [H1 H2].
    { clearbody P p'. clear HP1024 HnP Hhi Hdiv. subst P.
      destruct Ht as [-> | [-> | ->]];
        [change (2 ^ 0) with 1 in * | change (2 ^ 1) with 2 in *
         | change (2 ^ 2) with 4 in *]; split; lia. }
    apply Z.mul_lt_mono_pos_l in H1; [|lia].
    apply Z.mul_lt_mono_pos_l in H2; [|lia].
    lia.
Qed.

Lemma pretty_digit (i : Z) : 0 <= i <= 9 -> String.length (pretty i) = 1%nat.
Proof.
  intros Hi.
  assert (i = 0 \/ i = 1 \/ i = 2 \/ i = 3 \/ i = 4 \/ i = 5 \/ i = 6
          \/ i = 7 \/ i = 8 \/ i = 9) as H by lia.
  repeat (destruct H as [-> | H]; [reflexivity|]). subst. reflexivity.
Qed.

(** C3: an elapsed time below one second is printed as its count of
    milliseconds followed by [ms]; from one second on, as the hundredths of a
    second nearest to it, with exactly two digits after the point, followed
    by [s]. *)
Theorem elapsed_time_format (n : Z) :
  0 <= n < 2 ^ 53 ->
  (n < 1000 -> executionTime n = Ok (pretty n +:+ "ms"))
  /\ (1000 <= n ->
      exists k : Z,
        executionTime n = Ok (two_decimals k +:+ "s")
        /\ -5 <= 10 * k - n <= 5
        /\ String.length (pretty (k / 10 mod 10)) = 1%nat
        /\ String.length (pretty (k mod 10)) = 1%nat)
  /\ executionTime 999 = Ok "999ms"
  /\ executionTime 1000 = Ok "1.00s"
  /\ executionTime 2500 = Ok "2.50s".
Proof.
  intros Hn. split; [|split; [|repeat split; vm_compute; reflexivity]].
  - apply executionTime_millis.
  - intros Hge. destruct (executionTime_seconds n) as (k & Hk & Hnear); [lia|].
    exists k. repeat split; try assumption; try lia;
      apply pretty_digit; Z.to_euclidean_division_equations; lia.
Qed.

Lemma elapsed_time_format_witness :
  0 <= 2500 < 2 ^ 53 /\
  ((2500 < 1000 -> executionTime 2500 = Ok (pretty 2500 +:+ "ms"))
   /\ (1000 <= 2500 ->
       exists k : Z,
         executionTime 2500 = Ok (two_decimals k +:+ "s")
         /\ -5 <= 10 * k - 2500 <= 5
         /\ String.length (pretty (k / 10 mod 10)) = 1%nat
         /\ String.length (pretty (k mod 10)) = 1%nat)
   /\ executionTime 999 = Ok "999ms"
   /\ executionTime 1000 = Ok "1.00s"
   /\ executionTime 2500 = Ok "2.50s").
Proof.
  split; [vm_compute; split; [discriminate | reflexivity]|].
  apply (elapsed_time_format 2500). vm_compute. split; [discriminate | reflexivity].
Defined.

(** ** Reports of a ready instance *)

Lemma renders_set_timers (m : Map.t) (s : Signale) (r : value) (ty : string) :
  renders (set_timers m s) r ty = renders s r ty.
Proof. reflexivity. Qed.


Lemma timers_ready_set_stream (o : list string) (s : Signale) :
  timers_ready (set_stream o s) = timers_ready s.
Proof. reflexivity. Qed.





(** ** Timers *)




(** C8 (amended): for a non-empty label that is not tracked, [timeEnd(label)]
    returns [undefined], writes nothing and leaves the instance, its timer
    map included, as it was. *)
Theorem timeEnd_untracked_noop (w : World) (s : Signale) (l : string) :
  l <> "" ->
  Map.has (_timers s) l = false ->
  timeEnd w (Some l) s = (s, Ok None)
  /\ _stream (fst (timeEnd w (Some l) s)) = _stream s
  /\ _timers (fst (timeEnd w (Some l) s)) = _timers s.
Proof.
  intros Hl Hun. rewrite (timeEnd_untracked w s l Hl Hun). auto.
Qed.

Lemma timeEnd_untracked_noop_witness :
  "never" <> "" /\
  Map.has (_timers (Sample.running [("timer_0", 1)])) "never" = false /\
  (timeEnd (Sample.world 5) (Some "never") (Sample.running [("timer_0", 1)])
   = (Sample.running [("timer_0", 1)], Ok None)
   /\ _stream (fst (timeEnd (Sample.world 5) (Some "never")
                      (Sample.running [("timer_0", 1)])))
      = _stream (Sample.running [("timer_0", 1)])
   /\ _timers (fst (timeEnd (Sample.world 5) (Some "never")
                      (Sample.running [("timer_0", 1)])))
      = _timers (Sample.running [("timer_0", 1)])).
Proof.
  split; [discriminate|]. split; [reflexivity|].
  apply (timeEnd_untracked_noop (Sample.world 5)
           (Sample.running [("timer_0", 1)]) "never");
    [discriminate | reflexivity].
Defined.

(** C8 as stated fails at the empty label: it is not tracked, yet
    [timeEnd("")] stops the automatic timer. *)
Lemma timeEnd_empty_label_stops :
  Map.has (_timers (Sample.running [("timer_0", 1)])) "" = false
  /\ timeEnd (Sample.world 5) (Some "") (Sample.running [("timer_0", 1)])
     <> (Sample.running [("timer_0", 1)], Ok None).
Proof.
  split; [reflexivity|]. intros H.
  apply (f_equal snd) in H. vm_compute in H. discriminate H.
Qed.

Lemma timers_frame_witness :
  "x" <> "" /\ "x" <> "timer_0" /\
  (Map.get (_timers (fst (time (Sample.world 5) (Some "x") VUndef
                            (Sample.running [("timer_0", 1)])))) "timer_0"
   = Map.get (_timers (Sample.running [("timer_0", 1)])) "timer_0"
   /\ Map.has (_timers (fst (time (Sample.world 5) (Some "x") VUndef
                               (Sample.running [("timer_0", 1)])))) "timer_0"
      = Map.has (_timers (Sample.running [("timer_0", 1)])) "timer_0"
   /\ Map.get (_timers (fst (timeEnd (Sample.world 5) (Some "x")
                               (Sample.running [("timer_0", 1)])))) "timer_0"
      = Map.get (_timers (Sample.running [("timer_0", 1)])) "timer_0"
   /\ Map.has (_timers (fst (timeEnd (Sample.world 5) (Some "x")
                               (Sample.running [("timer_0", 1)])))) "timer_0"
      = Map.has (_timers (Sample.running [("timer_0", 1)])) "timer_0").
Proof.
  split; [discriminate|]. split; [discriminate|].
  apply (timers_frame (Sample.world 5) (Sample.running [("timer_0", 1)])
           "x" "timer_0" VUndef); discriminate.
Defined.

(** C10 as stated fails at the empty label: [timeEnd("")] removes the
    record of another label. *)
Lemma timers_frame_empty_label :
  "" <> "timer_0"
  /\ Map.get (_timers (fst (timeEnd (Sample.world 5) (Some "")
                              (Sample.running [("timer_0", 1)])))) "timer_0"
     <> Map.get (_timers (Sample.running [("timer_0", 1)])) "timer_0".
Proof.
  split; [discriminate|]. vm_compute. discriminate.
Qed.



(** ** The label [timeEnd()] picks *)

Lemma fold_pick_found (k : string) (ys : list (option string)) :
  includes k "timer_" = true ->
  foldl (fun acc y => x <~? acc ;; pick x y) (Ok (Some k)) ys = Ok (Some k).
Proof.
  intros Hk. induction ys as [|y ys IH]; [reflexivity|].
  cbn [foldl obind pick is_timer]. rewrite Hk. exact IH.
Qed.

Lemma fold_pick_thrown (e : error) (ys : list (option string)) :
  foldl (fun acc y => x <~? acc ;; pick x y) (Throw e) ys = Throw e.
Proof. induction ys as [|y ys IH]; simpl; [reflexivity | exact IH]. Qed.

Lemma fold_pick_null (ys : list (option string)) :
  foldl (fun acc y => x <~? acc ;; pick x y) (Ok None) ys
  = match ys with
    | [] => Ok None
    | _ :: _ => Throw TypeError
    end.
Proof. destruct ys as [|y ys]; simpl; [reflexivity | apply fold_pick_thrown]. Qed.

(** With one tracked timer, [timeEnd()] picks it whatever its label. *)
Lemma resolve_label_single (s : Signale) (k : string) (v : Z) :
  _timers s = [(k, v)] -> resolve_label s None = Ok (Some k).
Proof. intros E. unfold resolve_label. rewrite E. reflexivity. Qed.

(** With two or more, only the two most recent labels are looked at; when
    neither contains [timer_] and an older timer exists, the reducer calls
    [includes] on [null]. *)
Lemma resolve_label_recent (s : Signale) (ks : list string) (k2 k1 : string) :
  Map.keys (_timers s) = ks ++ [k2; k1] ->
  resolve_label s None
  = if includes k1 "timer_" then Ok (Some k1)
    else if includes k2 "timer_" then Ok (Some k2)
    else match ks with
         | [] => Ok None
         | _ :: _ => Throw TypeError
         end.
Proof.
  intros E. unfold resolve_label.
  assert (Map.size (_timers s) <> 0%nat) as Hsize.
  { unfold Map.size. unfold Map.keys in E.
    rewrite <- (length_map fst), E, length_app. simpl. lia. }
  destruct (Nat.eqb_spec (Map.size (_timers s)) 0); [contradiction|].
  cbn [no_label andb negb]. rewrite E.
  unfold reduceRight. rewrite fmap_app, rev_app_distr.
  cbn [fmap list_fmap rev app foldl obind pick is_timer].
  destruct (includes k1 "timer_") eqn:H1.
  - now apply fold_pick_found.
  - cbn [obind]. destruct (includes k2 "timer_") eqn:H2.
    + now apply fold_pick_found.
    + rewrite fold_pick_null.
      destruct ks as [|k ks]; [reflexivity|].
      cbn [fmap list_fmap rev].
      now destruct (rev _).
Qed.

(** C2: what [timeEnd()] does where the rule and the code part.  With
    [timer_0] tracked before two custom labels the call throws; with a
    single custom label tracked it stops that timer. *)
Theorem timeEnd_auto_label_defects :
  timeEnd (Sample.world 10) None
    (Sample.running [("timer_0", 1); ("a", 2); ("b", 3)])
  = (Sample.running [("timer_0", 1); ("a", 2); ("b", 3)], Throw TypeError)
  /\ snd (timeEnd (Sample.world 10) None (Sample.running [("a", 2)]))
     = Ok (Some {| Report.label := "a"; Report.span := 8 |}).
Proof. split; vm_compute; reflexivity. Qed.

(** ** Replacing the configuration *)

Lemma Object_assign_lookup (target m : gmap string value) (k : string) :
  Object_assign target (VObj m) !! k
  = match m !! k with
    | Some v => Some v
    | None => target !! k
    end.
Proof.
  unfold Object_assign. cbn [own_entries]. rewrite list_to_map_to_list.
  rewrite lookup_union.
  destruct (m !! k), (target !! k); reflexivity.
Qed.

(** C6: [config(newObj)] lays [newObj] over the package configuration read
    at that moment; the configuration the instance had before plays no part,
    so an option set by an earlier call and absent from both is not kept. *)
Theorem config_merges_over_package_defaults (w : World) (s s' : Signale)
    (newObj : gmap string value) (k : string) :
  _config (fst (config w (VObj newObj) s)) !! k
  = match newObj !! k with
    | Some v => Some v
    | None => packageConfiguration w !! k
    end
  /\ _config (fst (config w (VObj newObj) s))
     = _config (fst (config w (VObj newObj) s'))
  /\ (let s1 := fst (config (dated_world 0)
                       (VObj {["displayDate" := VBool false]}) Sample.fresh) in
      let s2 := fst (config (dated_world 1)
                       (VObj {["displayBadge" := VBool false]}) s1) in
      flag s1 "displayDate" = false
      /\ flag s2 "displayDate" = true
      /\ flag s2 "displayBadge" = false).
Proof.
  split; [apply Object_assign_lookup|].
  split; [reflexivity|].
  repeat split; vm_compute; reflexivity.
Qed.

(** ** Composing with a type that is not registered *)

Lemma buildSignale_undefined_type (w : World) (s : Signale) (args : list value) :
  flag s "displayBadge" || flag s "displayLabel" = true ->
  _buildSignale w s None args = Throw TypeError.
Proof.
  intros Hflags. unfold _buildSignale.
  destruct (message_of args) as [[msg prefix] suffix].
  destruct (flag s "displayBadge"); [reflexivity|].
  destruct (flag s "displayLabel"); [reflexivity | discriminate Hflags].
Qed.

(** C5 (amended): for a type name whose lookup in the table gives
    [undefined], and with the badge or the label switched on, composing
    throws and writes nothing. *)
Theorem unknown_type_fails (w : World) (s : Signale) (type : string)
    (args : list value) :
  _types s !! type = None ->
  existsb (String.eqb type) Object_prototype_names = false ->
  flag s "displayBadge" || flag s "displayLabel" = true ->
  _logger w type args s = (s, Throw TypeError)
  /\ _stream (fst (_logger w type args s)) = _stream s.
Proof.
  intros Hnone Hproto Hflags.
  assert (_logger w type args s = (s, Throw TypeError)) as E.
  { unfold _logger, bind, types_get. rewrite Hnone, Hproto.
    now rewrite buildSignale_undefined_type. }
  now rewrite E.
Qed.

Lemma unknown_type_fails_witness :
  _types Sample.fresh !! "nope" = None /\
  existsb (String.eqb "nope") Object_prototype_names = false /\
  flag Sample.fresh "displayBadge" || flag Sample.fresh "displayLabel" = true /\
  (_logger (Sample.world 0) "nope" [VStr "hi"] Sample.fresh
   = (Sample.fresh, Throw TypeError)
   /\ _stream (fst (_logger (Sample.world 0) "nope" [VStr "hi"] Sample.fresh))
      = _stream Sample.fresh).
Proof.
  split; [reflexivity|]. split; [reflexivity|]. split; [reflexivity|].
  apply (unknown_type_fails (Sample.world 0) Sample.fresh "nope" [VStr "hi"]);
    reflexivity.
Defined.

(** C5 as stated fails on an instance that shows neither badge nor label:
    the line is composed and written. *)
Lemma unknown_type_written_when_quiet :
  _types Sample.quiet !! "nope" = None
  /\ snd (_logger (Sample.world 0) "nope" [VStr "hi"] Sample.quiet) = Ok tt
  /\ _stream (fst (_logger (Sample.world 0) "nope" [VStr "hi"] Sample.quiet))
     = ["hi" +:+ String newline ""]
  /\ _logger (Sample.world 0) "nope" [VStr "hi"] Sample.quiet
     <> (Sample.quiet, Throw TypeError).
Proof.
  repeat split; try (vm_compute; reflexivity).
  intros H. apply (f_equal snd) in H. vm_compute in H. discriminate H.
Qed.

(** ** The message inside the composed line *)

Lemma append_assoc (a b c : string) : (a +:+ b) +:+ c = a +:+ b +:+ c.
Proof.
  induction a as [|x a IH]; [reflexivity|].
  change (String x ((a +:+ b) +:+ c) = String x (a +:+ b +:+ c)).
  now rewrite IH.
Qed.

Lemma append_empty_r (a : string) : a +:+ "" = a.
Proof.
  induction a as [|x a IH]; [reflexivity|].
  change (String x (a +:+ "") = String x a). now rewrite IH.
Qed.

Lemma substring_of_refl (m : string) : substring_of m m.
Proof. exists "", "". simpl. now rewrite append_empty_r. Qed.

Lemma substring_of_after (m s a : string) :
  substring_of m s -> substring_of m (a +:+ s).
Proof.
  intros (x & y & ->). exists (a +:+ x), y. now rewrite append_assoc.
Qed.

Lemma join_snoc (sep : string) (l : list string) (x : string) :
  join sep (l ++ [x])
  = match l with
    | [] => x
    | _ :: _ => join sep l +:+ sep +:+ x
    end.
Proof.
  unfold join. induction l as [|y l IH]; [reflexivity|].
  destruct l as [|z l].
  - reflexivity.
  - change (String.concat sep ((y :: z :: l) ++ [x]))
      with (y +:+ sep +:+ String.concat sep ((z :: l) ++ [x])).
    rewrite IH.
    change (String.concat sep (y :: z :: l))
      with (y +:+ sep +:+ String.concat sep (z :: l)).
    now rewrite !append_assoc.
Qed.

Lemma substring_of_join_last (m x sep : string) (l : list value) :
  substring_of m x -> substring_of m (Array_join sep (l ++ [VStr x])).
Proof.
  intros H. unfold Array_join. rewrite map_app. cbn [map join_item to_string].
  rewrite join_snoc. destruct (map join_item l); [exact H|].
  now do 2 apply substring_of_after.
Qed.

(** C9 (amended): for a registered type whose colour is a style of the
    library, and a message that the underline style, when it is applied,
    keeps in one piece, the line written for the single argument [M]
    contains [M]. *)
Theorem message_is_substring (w : World) (s : Signale) (T : string)
    (d : TypeDesc) (M : string) :
  _types s !! T = Some d ->
  chalk_has w (to_string (opt_value (color d))) = true ->
  flag s "underlineMessage" = false \/ substring_of M (chalk_underline w M) ->
  exists line : string,
    _logger w T [VStr M] s
    = (set_stream (_stream s ++ [line +:+ String newline ""]) s, Ok tt)
    /\ substring_of M line.
Proof.
  intros Hd Hcolor Hunder.
  assert (exists pre : list value,
            _buildSignale w s (Some d) [VStr M]
            = Ok (Array_join " "
                    (pre ++ [VStr (if flag s "underlineMessage"
                                   then chalk_underline w M else M)])))
    as [pre Hpre].
  { unfold _buildSignale. cbn [message_of typeof_object andb truthy].
    change (Array_join " " [VStr M]) with M.
    assert (chalk_of_type w d = Ok [to_string (opt_value (color d))]) as Hc
      by (unfold chalk_of_type, chalk_style; now rewrite Hcolor).
    cbn [type_field obind]. rewrite Hc. cbn [obind to_string].
    destruct (flag s "displayBadge"), (nonempty (badge d)),
      (flag s "displayLabel"), (nonempty (label d)),
      (flag s "underlineLabel"), (flag s "underlineMessage");
      cbn [obind]; eexists; reflexivity. }
  exists (Array_join " "
            (pre ++ [VStr (if flag s "underlineMessage"
                           then chalk_underline w M else M)])).
  split.
  - unfold _logger, bind, types_get, _log, modify. now rewrite Hd, Hpre.
  - apply substring_of_join_last.
    destruct Hunder as [-> | Hu]; [apply substring_of_refl|].
    destruct (flag s "underlineMessage"); [exact Hu | apply substring_of_refl].
Qed.

Lemma message_is_substring_witness :
  _types Sample.fresh !! "info"
  = Some {| badge := Some "i"; color := Some "blue"; label := Some "info" |} /\
  chalk_has (Sample.world 0)
    (to_string (opt_value (color {| badge := Some "i"; color := Some "blue";
                                    label := Some "info" |}))) = true /\
  (flag Sample.fresh "underlineMessage" = false
   \/ substring_of "hello" (chalk_underline (Sample.world 0) "hello")) /\
  exists line : string,
    _logger (Sample.world 0) "info" [VStr "hello"] Sample.fresh
    = (set_stream (_stream Sample.fresh ++ [line +:+ String newline ""])
         Sample.fresh, Ok tt)
    /\ substring_of "hello" line.
Proof.
  split; [reflexivity|]. split; [reflexivity|]. split; [left; reflexivity|].
  apply (message_is_substring (Sample.world 0) Sample.fresh "info"
           {| badge := Some "i"; color := Some "blue"; label := Some "info" |}
           "hello");
    [reflexivity | reflexivity | left; reflexivity].
Defined.

(** C9 as stated fails for a registered type that names no colour: composing
    throws and no line is written. *)
Lemma message_lost_without_colour :
  _types Sample.colourless !! "note"
  = Some {| badge := Some "!"; color := None; label := Some "note" |}
  /\ ~ (exists line : string,
          _logger (Sample.world 0) "note" [VStr "hi"] Sample.colourless
          = (set_stream (_stream Sample.colourless ++ [line +:+ String newline ""])
               Sample.colourless, Ok tt)
          /\ substring_of "hi" line).
Proof.
  split; [reflexivity|]. intros (line & H & _).
  apply (f_equal snd) in H. vm_compute in H. discriminate H.
Qed.

(** ** [includes] decides [substring_of] *)

Lemma prefix_app (m s : string) :
  String.prefix m s = true <-> exists b : string, s = m +:+ b.
Proof.
  revert s. induction m as [|c m IH]; intros s.
  - destruct s; simpl; split; eauto.
  - destruct s as [|d s]; simpl.
    + split; [discriminate | intros [b Hb]; discriminate Hb].
    + destruct (ascii_dec c d) as [->|Hcd].
      * rewrite IH. split; intros [b Hb]; exists b.
        -- now rewrite Hb.
        -- now injection Hb.
      * split; [discriminate | intros [b Hb]; injection Hb; congruence].
Qed.

Lemma includes_substring_of (s m : string) :
  includes s m = true <-> substring_of m s.
Proof.
  induction s as [|c s IH].
  - cbn [includes]. rewrite orb_false_r, prefix_app. split.
    + intros [b Hb]. exists "", b. exact Hb.
    + intros (a & b & H). destruct a; [now exists b|discriminate H].
  - cbn [includes]. rewrite orb_true_iff, prefix_app, IH. split.
    + intros [[b Hb] | (a & b & Hab)].
      * exists "", b. exact Hb.
      * exists (String c a), b. simpl. now rewrite Hab.
    + intros (a & b & H). destruct a as [|c' a].
      * left. now exists b.
      * right. exists a, b. simpl in H. now injection H.
Qed.

(** Where the underline style does not keep the message in one piece, the
    line need not contain it: the proviso of [message_is_substring] on that
    style cannot be dropped. *)
Lemma message_split_by_styling :
  let M := "a" +:+ String newline "b" in
  let line :=
    "<blue>i </blue> <blue><underline>info</underline></blue> <underline>a</underline>"
    +:+ String newline "<underline>b</underline>" in
  _logger Sample.by_line_world "info" [VStr M] Sample.underlining
  = (set_stream [line +:+ String newline ""] Sample.underlining, Ok tt)
  /\ ~ substring_of M line.
Proof.
  split; [vm_compute; reflexivity|].
  rewrite <- includes_substring_of. vm_compute. discriminate.
Qed.

(** ** The option block of [time] *)

Lemma set_styles_set_styles (t t' : TimerStyles) (s : Signale) :
  set_styles t (set_styles t' s) = set_styles t s.
Proof. reflexivity. Qed.











(** The layering read key by key: the text given beside [start] wins over
    the text inside it, in both records, and the colour inside [start]
    reaches the start record only. *)
Example layering_by_key :
  let after := __timers (fst (time (Sample.world 0) (Some "x")
                                (VObj Sample.restyle) Sample.fresh)) in
  js_get (start after) "text" = Ok (VStr "b")
  /\ js_get (start after) "color" = Ok (VStr "red")
  /\ js_get (end_ after) "text" = Ok (VStr "b")
  /\ js_get (end_ after) "color" = Ok VUndef.
Proof. repeat split; vm_compute; reflexivity. Qed.

(** With [both], each of its keys reaches the two records. *)
Example both_by_key :
  let options : gmap string value :=
    {["both" := VObj {["color" := VStr "blue"]}; "text" := VStr "b"]} in
  let after := __timers (fst (time (Sample.world 0) (Some "x") (VObj options)
                                Sample.fresh)) in
  js_get (start after) "color" = Ok (VStr "blue")
  /\ js_get (end_ after) "color" = Ok (VStr "blue")
  /\ js_get (start after) "text" = Ok VUndef.
Proof. repeat split; vm_compute; reflexivity. Qed.

(** * Further properties of the code *)

(** ** The meta prefix *)


(** X2: an array scope made only of empty names is formatted as the empty
    string, and when the scope is shown it still makes [_meta] list that
    blank item and the pointer. *)
Theorem blank_scope_still_pointed (w : World) (s : Signale) (names : list string) :
  _scopeName s = ScopeArr names ->
  names <> [] ->
  Forall (fun x => x = "") names ->
  flag s "displayScope" = true ->
  flag s "displayDate" = false ->
  flag s "displayTimestamp" = false ->
  flag s "displayFilename" = false ->
  _formatScopeName w s = ""
  /\ _meta w s = [chalk_grey w ""; chalk_grey w (pointerSmall w)].
Proof.
  intros Hsc Hne Hall Hscope Hdate Htime Hfile.
  assert (_formatScopeName w s = "") as Hfmt.
  { unfold _formatScopeName. rewrite Hsc.
    replace (List.filter (fun x => negb (String.length x =? 0)%nat) names)
      with (@nil string); [reflexivity|].
    clear Hsc Hne. induction Hall as [|x l -> _ IH]; [reflexivity | exact IH]. }
  split; [exact Hfmt|].
  unfold _meta. rewrite Hdate, Htime, Hfile, Hscope, Hfmt, Hsc.
  destruct names as [|x names]; [contradiction | reflexivity].
Qed.

Lemma blank_scope_still_pointed_witness :
  _scopeName blank_scoped = ScopeArr [""] /\
  [""] <> ([] : list string) /\
  Forall (fun x => x = "") [""] /\
  flag blank_scoped "displayScope" = true /\
  flag blank_scoped "displayDate" = false /\
  flag blank_scoped "displayTimestamp" = false /\
  flag blank_scoped "displayFilename" = false /\
  (_formatScopeName (Sample.world 0) blank_scoped = ""
   /\ _meta (Sample.world 0) blank_scoped
      = [chalk_grey (Sample.world 0) "";
         chalk_grey (Sample.world 0) (pointerSmall (Sample.world 0))]).
Proof.
  split; [reflexivity|]. split; [discriminate|].
  split; [repeat constructor|].
  split; [reflexivity|]. split; [reflexivity|]. split; [reflexivity|].
  split; [reflexivity|].
  apply (blank_scope_still_pointed (Sample.world 0) blank_scoped [""]);
    [reflexivity | discriminate | repeat constructor
     | reflexivity | reflexivity | reflexivity | reflexivity].
Defined.

(** X3: after [unscope()] no scope is listed, whatever [displayScope] says:
    [_meta] is what it is with the scope switched off, and the rest of the
    instance is as before. *)
Theorem unscope_hides_scope (w : World) (s : Signale) (v : value) :
  let s' := fst (unscope s) in
  snd (unscope s) = Ok tt
  /\ scopeName s' = ScopeStr ""
  /\ _meta w s' = _meta w (set_config (<["displayScope" := VBool false]> (_config s)) s)
  /\ _meta w (set_config (<["displayScope" := v]> (_config s')) s') = _meta w s'
  /\ (_config s', _timers s', __timers s', _types s', _stream s')
     = (_config s, _timers s, __timers s, _types s, _stream s).
Proof.
  cbn. repeat split.
  - unfold _meta, flag, scope_length. cbn.
    rewrite lookup_insert_eq, !lookup_insert_ne by discriminate. cbn.
    now rewrite andb_false_r.
  - unfold _meta, flag, scope_length. cbn.
    now rewrite !lookup_insert_ne by discriminate.
Qed.

(** ** Composing a message: the shapes of the arguments *)

Lemma Array_join_snoc_item (sep : string) (l : list value) (a b : value) :
  join_item a = join_item b ->
  Array_join sep (l ++ [a]) = Array_join sep (l ++ [b]).
Proof. intros H. unfold Array_join. rewrite !map_app. cbn [map]. now rewrite H. Qed.

(** The line for a message that is no [Error], once the tokens before it
    are composed: it depends on the message through [join_item] only when
    the message is not underlined. *)
Lemma buildSignale_plain_message (w : World) (s : Signale)
    (type : option TypeDesc) (a b : list value) (m1 m2 : value) :
  flag s "underlineMessage" = false ->
  message_of a = (m1, VUndef, VUndef) ->
  message_of b = (m2, VUndef, VUndef) ->
  instanceof_Error m1 = false -> instanceof_Error m2 = false ->
  join_item m1 = join_item m2 ->
  _buildSignale w s type a = _buildSignale w s type b.
Proof.
  intros Hu Ha Hb H1 H2 Hj. unfold _buildSignale. rewrite Ha, Hb, Hu.
  cbn [truthy].
  match goal with
  | |- obind ?st1 _ = _ => destruct st1 as [sig1| |]; cbn [obind]; try reflexivity
  end.
  match goal with
  | |- obind ?st2 _ = _ => destruct st2 as [sig2| |]; cbn [obind]; try reflexivity
  end.
  destruct m1; try discriminate H1; destruct m2; try discriminate H2;
    f_equal; now apply Array_join_snoc_item.
Qed.

(** X4: with the message not underlined, a single array argument, and a
    single object argument that has no [message], [prefix] or [suffix], are
    composed like the empty message: what they hold is not printed. *)
Theorem lone_array_prints_nothing (w : World) (s : Signale)
    (type : option TypeDesc) (l : list value) (m : gmap string value) :
  flag s "underlineMessage" = false ->
  m !! "message" = None -> m !! "prefix" = None -> m !! "suffix" = None ->
  _buildSignale w s type [VArr l] = _buildSignale w s type [VStr ""]
  /\ _buildSignale w s type [VObj m] = _buildSignale w s type [VStr ""].
Proof.
  intros Hu Hm Hp Hs. split.
  - apply (buildSignale_plain_message w s type _ _ VUndef (VStr "")); auto.
  - apply (buildSignale_plain_message w s type _ _ VUndef (VStr "")); auto.
    cbn [message_of typeof_object andb negb instanceof_Error].
    now rewrite Hm, Hp, Hs.
Qed.

Lemma lone_array_prints_nothing_witness :
  flag Sample.fresh "underlineMessage" = false /\
  (∅ : gmap string value) !! "message" = None /\
  (∅ : gmap string value) !! "prefix" = None /\
  (∅ : gmap string value) !! "suffix" = None /\
  (_buildSignale (Sample.world 0) Sample.fresh (types_get Sample.fresh "info")
     [VArr [VStr "a"; VStr "b"]]
   = _buildSignale (Sample.world 0) Sample.fresh (types_get Sample.fresh "info")
       [VStr ""]
   /\ _buildSignale (Sample.world 0) Sample.fresh (types_get Sample.fresh "info")
        [VObj ∅]
      = _buildSignale (Sample.world 0) Sample.fresh (types_get Sample.fresh "info")
          [VStr ""]).
Proof.
  split; [reflexivity|]. split; [reflexivity|]. split; [reflexivity|].
  split; [reflexivity|].
  apply (lone_array_prints_nothing (Sample.world 0) Sample.fresh
           (types_get Sample.fresh "info") [VStr "a"; VStr "b"] ∅); reflexivity.
Defined.

(** X5: when the message of an object argument is an [Error], the suffix
    is never printed: the line is the one composed without it. *)
Theorem error_message_drops_suffix (w : World) (s : Signale)
    (type : option TypeDesc) (m : gmap string value)
    (name message stack : string) :
  m !! "message" = Some (VErr name message stack) ->
  _buildSignale w s type [VObj m]
  = _buildSignale w s type [VObj (delete "suffix" m)].
Proof.
  intros Hm. unfold _buildSignale.
  cbn [message_of typeof_object andb negb instanceof_Error].
  rewrite !lookup_delete_ne by discriminate. rewrite lookup_delete_eq, Hm.
  cbn [default from_option].
  repeat match goal with
  | |- obind ?st _ = obind ?st _ =>
      destruct st as [?| |]; cbn [obind]; try reflexivity
  end.
Qed.

Lemma error_message_drops_suffix_witness :
  ({["message" := VErr "Error" "boom" "Error: boom"; "suffix" := VStr "tail"]}
     : gmap string value) !! "message"
  = Some (VErr "Error" "boom" "Error: boom") /\
  _buildSignale (Sample.world 0) Sample.fresh (types_get Sample.fresh "info")
    [VObj {["message" := VErr "Error" "boom" "Error: boom";
            "suffix" := VStr "tail"]}]
  = _buildSignale (Sample.world 0) Sample.fresh (types_get Sample.fresh "info")
      [VObj (delete "suffix"
               ({["message" := VErr "Error" "boom" "Error: boom";
                  "suffix" := VStr "tail"]} : gmap string value))].
Proof.
  split; [reflexivity|].
  apply (error_message_drops_suffix (Sample.world 0) Sample.fresh
           (types_get Sample.fresh "info") _ "Error" "boom" "Error: boom").
  reflexivity.
Defined.


(** ** The timer map under [set] and [delete] *)


Lemma Map_keys_set_tracked (m : Map.t) (k : string) (v : Z) :
  Map.has m k = true -> Map.keys (Map.set m k v) = Map.keys m.
Proof.
  unfold Map.has, Map.keys.
  induction m as [|[k0 v0] m IH]; cbn [existsb Map.set map fst]; [discriminate|].
  intros H. destruct (String.eqb k0 k) eqn:E; cbn [map fst].
  - apply String.eqb_eq in E. now subst.
  - cbn [orb] in H. now rewrite IH.
Qed.

Lemma Map_keys_set_new (m : Map.t) (k : string) (v : Z) :
  Map.has m k = false -> Map.keys (Map.set m k v) = Map.keys m ++ [k].
Proof.
  unfold Map.has, Map.keys.
  induction m as [|[k0 v0] m IH]; cbn [existsb Map.set map fst app]; [reflexivity|].
  intros H. destruct (String.eqb k0 k) eqn:E; [discriminate H|].
  cbn [orb] in H. cbn [map fst]. now rewrite IH.
Qed.


Lemma Map_delete_absent (m : Map.t) (k : string) :
  Map.has m k = false -> Map.delete m k = m.
Proof.
  unfold Map.has, Map.delete.
  induction m as [|[k0 v0] m IH]; cbn [existsb List.filter fst]; [reflexivity|].
  intros H. destruct (String.eqb k0 k) eqn:E; [discriminate H|].
  cbn [orb negb] in *. now rewrite IH.
Qed.


Lemma Map_has_set (m : Map.t) (k : string) (v : Z) :
  Map.has (Map.set m k v) k = true.
Proof.
  unfold Map.has.
  induction m as [|[k0 v0] m IH]; cbn [Map.set existsb fst].
  - now rewrite String.eqb_refl.
  - destruct (String.eqb k0 k) eqn:E; cbn [existsb fst].
    + now rewrite String.eqb_refl.
    + now rewrite E, IH.
Qed.

Lemma Map_keys_delete (m : Map.t) (k : string) :
  Map.keys (Map.delete m k)
  = List.filter (fun x => negb (String.eqb x k)) (Map.keys m).
Proof.
  unfold Map.keys, Map.delete.
  induction m as [|[k0 v0] m IH]; cbn [List.filter map fst]; [reflexivity|].
  destruct (String.eqb k0 k); cbn [negb map fst]; now rewrite IH.
Qed.

Lemma Map_has_In (m : Map.t) (k : string) :
  Map.has m k = true <-> In k (Map.keys m).
Proof.
  unfold Map.has, Map.keys. rewrite existsb_exists, in_map_iff.
  split; intros ([k0 v0] & H1 & H2); exists (k0, v0); cbn [fst] in *.
  - apply String.eqb_eq in H2. now subst.
  - subst. split; [assumption | apply String.eqb_refl].
Qed.

Lemma Map_NoDup_set (m : Map.t) (k : string) (v : Z) :
  NoDup (Map.keys m) -> NoDup (Map.keys (Map.set m k v)).
Proof.
  intros H. destruct (Map.has m k) eqn:E.
  - now rewrite Map_keys_set_tracked.
  - rewrite Map_keys_set_new by assumption.
    apply NoDup_app. split; [assumption|]. split; [|apply NoDup_singleton].
    intros x Hx Hk. apply list_elem_of_singleton in Hk. subst x.
    apply list_elem_of_In, Map_has_In in Hx. congruence.
Qed.

Lemma Map_NoDup_delete (m : Map.t) (k : string) :
  NoDup (Map.keys m) -> NoDup (Map.keys (Map.delete m k)).
Proof.
  intros H. rewrite Map_keys_delete.
  apply NoDup_ListNoDup. apply List.NoDup_filter. now apply NoDup_ListNoDup.
Qed.

Lemma Map_size_delete (m : Map.t) (k : string) :
  NoDup (Map.keys m) -> Map.has m k = true ->
  S (Map.size (Map.delete m k)) = Map.size m.
Proof.
  unfold Map.size, Map.has, Map.delete, Map.keys.
  induction m as [|[k0 v0] m IH]; cbn [existsb List.filter map fst length];
    [discriminate|].
  intros Hnd H. apply NoDup_cons in Hnd as [Hnotin Hnd].
  destruct (String.eqb k0 k) eqn:E; cbn [negb orb length] in *.
  - apply String.eqb_eq in E. subst k0. f_equal.
    change (Map.size (Map.delete m k) = Map.size m).
    rewrite Map_delete_absent; [reflexivity|].
    destruct (Map.has m k) eqn:Hh; [|reflexivity].
    apply Map_has_In in Hh. exfalso. apply Hnotin. now apply list_elem_of_In.
  - f_equal. now apply IH.
Qed.

Lemma Map_size_set (m : Map.t) (k : string) (v : Z) :
  Map.size (Map.set m k v)
  = if Map.has m k then Map.size m else S (Map.size m).
Proof.
  unfold Map.size. rewrite <- !(length_map fst). fold (Map.keys (Map.set m k v)).
  fold (Map.keys m).
  destruct (Map.has m k) eqn:E.
  - now rewrite Map_keys_set_tracked.
  - rewrite Map_keys_set_new, length_app by assumption. cbn [length]. lia.
Qed.

(** ** Calls of [time] and [timeEnd] one after another *)







(** ** Automatic labels *)





(** ** [timeEnd()] among custom labels *)

(** X10: when neither of the two most recent labels contains [timer_],
    [timeEnd()] stops nothing and writes nothing: with exactly two timers
    it returns [undefined], with three or more it throws a [TypeError],
    whatever the older labels are. *)
Theorem timeEnd_two_custom_labels (w : World) (s : Signale)
    (ks : list string) (k2 k1 : string) :
  Map.keys (_timers s) = ks ++ [k2; k1] ->
  includes k1 "timer_" = false ->
  includes k2 "timer_" = false ->
  timeEnd w None s
  = (s, match ks with
        | [] => Ok None
        | _ :: _ => Throw TypeError
        end).
Proof.
  intros E H1 H2. unfold timeEnd, bind, gets, ret.
  rewrite (resolve_label_recent s ks k2 k1 E), H1, H2.
  now destruct ks.
Qed.

Lemma timeEnd_two_custom_labels_witness :
  Map.keys (_timers (Sample.running [("timer_0", 1); ("timer_1", 2);
                                      ("a", 3); ("b", 4)]))
  = ["timer_0"; "timer_1"] ++ ["a"; "b"]
  /\ includes "b" "timer_" = false
  /\ includes "a" "timer_" = false
  /\ timeEnd (Sample.world 10) None
       (Sample.running [("timer_0", 1); ("timer_1", 2); ("a", 3); ("b", 4)])
     = (Sample.running [("timer_0", 1); ("timer_1", 2); ("a", 3); ("b", 4)],
        Throw TypeError).
Proof.
  split; [reflexivity|]. split; [reflexivity|]. split; [reflexivity|].
  apply (timeEnd_two_custom_labels (Sample.world 10)
           (Sample.running [("timer_0", 1); ("timer_1", 2); ("a", 3); ("b", 4)])
           ["timer_0"; "timer_1"] "a" "b"); reflexivity.
Defined.

(** ** The number of timers *)

(** What [time] did when it returned a label. *)
Lemma time_returned (w : World) (label : option string) (options : value)
    (s : Signale) (l : string) :
  snd (time w label options s) = Ok l ->
  l = effective_label s label
  /\ _timers (fst (time w label options s))
     = Map.set (_timers s) l (Date_now w).
Proof.
  pose proof (apply_options_only options s) as Ho.
  unfold time, bind, gets, modify, _log, ret. simpl.
  destruct (apply_options options s) as [s1 [[]| |]]; simpl in Ho;
    apply only_styles_timers in Ho; try discriminate.
  match goal with
  | |- context [start_report ?a ?b ?c] => destruct (start_report a b c)
  end; simpl; try discriminate.
  intros [= <-]. now rewrite Ho.
Qed.

(** What [timeEnd] did when it returned a record. *)
Lemma timeEnd_reported (w : World) (label : option string) (s : Signale)
    (r : Report.t) :
  snd (timeEnd w label s) = Ok (Some r) ->
  exists l then_,
    resolve_label s label = Ok (Some l)
    /\ Map.get (_timers s) l = Some then_
    /\ r = {| Report.label := l; Report.span := Date_now w - then_ |}
    /\ _timers (fst (timeEnd w label s)) = Map.delete (_timers s) l.
Proof.
  unfold timeEnd, bind, gets, modify, _log, ret, timeSpan, now. simpl.
  destruct (resolve_label s label) as [[l|]| |] eqn:Hres; simpl;
    try discriminate.
  destruct (Map.get (_timers s) l) as [then_|] eqn:Hget; simpl;
    try discriminate.
  match goal with
  | |- context [end_report ?a ?b ?c ?d] => destruct (end_report a b c d)
  end; simpl; try discriminate.
  intros [= <-]. exists l, then_. repeat split; assumption || reflexivity.
Qed.

(** X11: the labels of the timer map stay pairwise distinct under [time]
    and [timeEnd], whatever the label and the options.  A [time] that
    returns adds one timer when its label was not tracked and none when it
    was; a [timeEnd] that returns a record removes exactly one. *)
Theorem timer_count (w : World) (label : option string) (options : value)
    (s : Signale) :
  NoDup (Map.keys (_timers s)) ->
  NoDup (Map.keys (_timers (fst (time w label options s))))
  /\ NoDup (Map.keys (_timers (fst (timeEnd w label s))))
  /\ (forall l, snd (time w label options s) = Ok l ->
        Map.size (_timers (fst (time w label options s)))
        = if Map.has (_timers s) l then Map.size (_timers s)
          else S (Map.size (_timers s)))
  /\ (forall r, snd (timeEnd w label s) = Ok (Some r) ->
        S (Map.size (_timers (fst (timeEnd w label s))))
        = Map.size (_timers s)).
Proof.
  intros Hnd. repeat split.
  - destruct (time_timers w label options s) as [-> | ->];
      [assumption | now apply Map_NoDup_set].
  - destruct (timeEnd_timers w label s) as [-> | (l & _ & ->)];
      [assumption | now apply Map_NoDup_delete].
  - intros l Hl. apply time_returned in Hl as [_ ->]. apply Map_size_set.
  - intros r Hr. apply timeEnd_reported in Hr as (l & then_ & _ & Hg & _ & ->).
    apply Map_size_delete; [assumption|].
    apply MapFacts.has_get. now exists then_.
Qed.

Lemma timer_count_witness :
  NoDup (Map.keys (_timers (Sample.running [("a", 1); ("b", 2)])))
  /\ (NoDup (Map.keys (_timers (fst (time (Sample.world 5) (Some "a") VUndef
                                       (Sample.running [("a", 1); ("b", 2)])))))
      /\ NoDup (Map.keys (_timers (fst (timeEnd (Sample.world 5) (Some "a")
                                          (Sample.running [("a", 1); ("b", 2)])))))
      /\ (forall l, snd (time (Sample.world 5) (Some "a") VUndef
                           (Sample.running [("a", 1); ("b", 2)])) = Ok l ->
            Map.size (_timers (fst (time (Sample.world 5) (Some "a") VUndef
                                      (Sample.running [("a", 1); ("b", 2)]))))
            = if Map.has (_timers (Sample.running [("a", 1); ("b", 2)])) l
              then Map.size (_timers (Sample.running [("a", 1); ("b", 2)]))
              else S (Map.size (_timers (Sample.running [("a", 1); ("b", 2)]))))
      /\ (forall r, snd (timeEnd (Sample.world 5) (Some "a")
                           (Sample.running [("a", 1); ("b", 2)])) = Ok (Some r) ->
            S (Map.size (_timers (fst (timeEnd (Sample.world 5) (Some "a")
                                         (Sample.running [("a", 1); ("b", 2)])))))
            = Map.size (_timers (Sample.running [("a", 1); ("b", 2)])))).
Proof.
  assert (NoDup (Map.keys (_timers (Sample.running [("a", 1); ("b", 2)])))) as H.
  { apply NoDup_ListNoDup. cbn. repeat constructor; simpl; intuition discriminate. }
  split; [exact H|].
  apply (timer_count (Sample.world 5) (Some "a") VUndef
           (Sample.running [("a", 1); ("b", 2)]) H).
Defined.

(** ** Reports that cannot be composed *)

Lemma badge_or_not_outside (s : Signale) (b : value) (type : string) :
  badge_or s b type <> Outside.
Proof.
  unfold badge_or. destruct (truthy b); [discriminate|].
  destruct (_types s !! type); discriminate.
Qed.

Lemma start_report_fails (w : World) (s : Signale) (l : string) :
  renders s (start (__timers s)) "start" = false ->
  start_report w s l = Throw TypeError.
Proof.
  unfold renders, start_report. intros H.
  destruct (start (__timers s)) as [| |?|?|?|?|m|? ? ?];
    cbn [js_get obind] in *; try reflexivity;
    match type of H with
    | context [badge_or ?a ?b ?c] =>
        pose proof (badge_or_not_outside a b c) as Hno;
        destruct (badge_or a b c) as [[| |?|?|?|?|?|? ? ?]|[]|]
    end; try contradiction; cbn [obind] in *; try reflexivity;
    try (simpl in H; discriminate H);
    destruct (default VUndef (m !! "text")) as [| |?|?|?|?|?|? ? ?];
    simpl in *; try discriminate; reflexivity.
Qed.

Lemma end_report_fails (w : World) (s : Signale) (l : string) (span : Z) :
  0 <= span < 2 ^ 53 ->
  renders s (if truthy (end_ (__timers s)) then end_ (__timers s) else VObj ∅)
    "pause" = false ->
  end_report w s l span = Throw TypeError.
Proof.
  intros Hspan H.
  assert (exists t, executionTime span = Ok t) as [t Ht].
  { destruct (Z.lt_ge_cases span 1000).
    - rewrite executionTime_millis by lia. eauto.
    - destruct (executionTime_seconds span) as (k & -> & _); [lia | eauto]. }
  unfold renders in H. unfold end_report. rewrite Ht. cbn [obind].
  destruct (if truthy (end_ (__timers s)) then end_ (__timers s) else VObj ∅)
    as [| |?|?|?|?|m|? ? ?];
    cbn [js_get obind] in *; try reflexivity;
    match type of H with
    | context [badge_or ?a ?b ?c] =>
        pose proof (badge_or_not_outside a b c) as Hno;
        destruct (badge_or a b c) as [[| |?|?|?|?|?|? ? ?]|[]|]
    end; try contradiction; cbn [obind] in *; try reflexivity;
    try (simpl in H; discriminate H);
    destruct (default VUndef (m !! "text")) as [| |?|?|?|?|?|? ? ?];
    simpl in *; try discriminate; reflexivity.
Qed.

(** X12: [time] records the timer before it composes its report.  When
    the options are taken in but the start report cannot be composed (its
    badge is no string, or its text is an object other than an array), the
    call throws a [TypeError] and writes nothing, yet the timer is tracked
    and the overrides are kept. *)
Theorem time_tracks_before_failing (w : World) (label : option string)
    (options : value) (s s1 : Signale) :
  apply_options options s = (s1, Ok tt) ->
  renders s1 (start (__timers s1)) "start" = false ->
  time w label options s
  = (set_timers (Map.set (_timers s) (effective_label s label) (Date_now w)) s1,
     Throw TypeError)
  /\ _stream s1 = _stream s
  /\ Map.has (_timers (fst (time w label options s))) (effective_label s label)
     = true.
Proof.
  intros Ho Hr.
  pose proof (apply_options_only options s) as Hs. rewrite Ho in Hs.
  cbn [fst] in Hs.
  assert (_timers s1 = _timers s) as Ht by now apply only_styles_timers.
  assert (time w label options s
          = (set_timers (Map.set (_timers s) (effective_label s label)
                                  (Date_now w)) s1,
             Throw TypeError)) as E.
  { unfold time, bind, gets, modify, _log, ret. cbn [fst snd]. rewrite Ho.
    cbn [fst snd]. rewrite Ht.
    rewrite (start_report_fails w _ _); [reflexivity|].
    now rewrite renders_set_timers. }
  split; [exact E|]. split; [now rewrite Hs|].
  rewrite E. cbn [fst]. apply Map_has_set.
Qed.

Lemma time_tracks_before_failing_witness :
  apply_options (VObj {["text" := VNull]}) Sample.fresh
  = (set_styles {| start := VObj {["text" := VNull]};
                   end_ := VObj {["text" := VNull]} |} Sample.fresh, Ok tt)
  /\ renders (set_styles {| start := VObj {["text" := VNull]};
                            end_ := VObj {["text" := VNull]} |} Sample.fresh)
       (start (__timers (set_styles {| start := VObj {["text" := VNull]};
                                       end_ := VObj {["text" := VNull]} |}
                           Sample.fresh))) "start" = false
  /\ (time (Sample.world 1) (Some "x") (VObj {["text" := VNull]}) Sample.fresh
      = (set_timers (Map.set (_timers Sample.fresh)
                       (effective_label Sample.fresh (Some "x"))
                       (Date_now (Sample.world 1)))
           (set_styles {| start := VObj {["text" := VNull]};
                          end_ := VObj {["text" := VNull]} |} Sample.fresh),
         Throw TypeError)
      /\ _stream (set_styles {| start := VObj {["text" := VNull]};
                                end_ := VObj {["text" := VNull]} |} Sample.fresh)
         = _stream Sample.fresh
      /\ Map.has (_timers (fst (time (Sample.world 1) (Some "x")
                                  (VObj {["text" := VNull]}) Sample.fresh)))
           (effective_label Sample.fresh (Some "x")) = true).
Proof.
  assert (apply_options (VObj {["text" := VNull]}) Sample.fresh
          = (set_styles {| start := VObj {["text" := VNull]};
                           end_ := VObj {["text" := VNull]} |} Sample.fresh, Ok tt))
    as H by (vm_compute; reflexivity).
  split; [exact H|]. split; [reflexivity|].
  apply (time_tracks_before_failing (Sample.world 1) (Some "x")
           (VObj {["text" := VNull]}) Sample.fresh _ H).
  reflexivity.
Defined.

(** X13: [timeEnd] removes the timer before it composes its report.  When
    the end report cannot be composed, the call throws a [TypeError] and
    writes nothing, and the timer is gone: a second [timeEnd] with the
    same label returns [undefined]. *)
Theorem timeEnd_forgets_before_failing (w w' : World) (s : Signale)
    (l : string) (then_ : Z) :
  l <> "" ->
  Map.get (_timers s) l = Some then_ ->
  0 <= Date_now w - then_ < 2 ^ 53 ->
  renders s (if truthy (end_ (__timers s)) then end_ (__timers s) else VObj ∅)
    "pause" = false ->
  timeEnd w (Some l) s
  = (set_timers (Map.delete (_timers s) l) s, Throw TypeError)
  /\ timeEnd w' (Some l) (set_timers (Map.delete (_timers s) l) s)
     = (set_timers (Map.delete (_timers s) l) s, Ok None).
Proof.
  intros Hl Hget Hspan Hr. split.
  - unfold timeEnd, bind, gets, modify, _log, ret, timeSpan, now.
    rewrite (resolve_label_Some s l Hl). simpl. rewrite Hget. simpl.
    rewrite (end_report_fails w _ l _ Hspan); [reflexivity|].
    now rewrite renders_set_timers.
  - apply timeEnd_untracked; [assumption|].
    apply MapFacts.has_false_get. apply MapFacts.get_delete_eq.
Qed.

Lemma timeEnd_forgets_before_failing_witness :
  "x" <> ""
  /\ Map.get (_timers stuck) "x" = Some 1
  /\ 0 <= Date_now (Sample.world 9) - 1 < 2 ^ 53
  /\ renders stuck
       (if truthy (end_ (__timers stuck)) then end_ (__timers stuck) else VObj ∅)
       "pause" = false
  /\ (timeEnd (Sample.world 9) (Some "x") stuck
      = (set_timers (Map.delete (_timers stuck) "x") stuck, Throw TypeError)
      /\ timeEnd (Sample.world 12) (Some "x")
           (set_timers (Map.delete (_timers stuck) "x") stuck)
         = (set_timers (Map.delete (_timers stuck) "x") stuck, Ok None)).
Proof.
  split; [discriminate|]. split; [vm_compute; reflexivity|].
  split; [vm_compute; split; [discriminate | reflexivity]|].
  split; [vm_compute; reflexivity|].
  apply (timeEnd_forgets_before_failing (Sample.world 9) (Sample.world 12)
           stuck "x" 1);
    [discriminate | vm_compute; reflexivity
    | vm_compute; split; [discriminate | reflexivity]
    | vm_compute; reflexivity].
Defined.

(** ** What the timer calls leave alone *)



(** ** The label width of a new instance *)

Lemma length_spaces (n : nat) : String.length (spaces n) = n.
Proof. induction n as [|n IH]; cbn [spaces String.length]; congruence. Qed.

Lemma length_append (a b : string) :
  String.length (a +:+ b) = (String.length a + String.length b)%nat.
Proof.
  induction a as [|c a IH]; [reflexivity|].
  change (S (String.length (a +:+ b)) = S (String.length a + String.length b)).
  now rewrite IH.
Qed.

Lemma padEnd_length (x : string) (n : nat) :
  String.length (padEnd x n) = Nat.max (String.length x) n.
Proof.
  unfold padEnd. rewrite length_append, length_spaces. lia.
Qed.

(** The step of the constructor's loop over the types. *)
Lemma longest_step (d : TypeDesc) (n : nat) :
  let n' := match label d with
            | Some l' =>
                if negb (String.eqb l' "") && (n <? String.length l')%nat
                then String.length l' else n
            | None => n
            end in
  (n <= n')%nat
  /\ (forall l, label d = Some l -> (String.length l <= n')%nat)
  /\ (n' = n \/ exists l, label d = Some l /\ n' = String.length l).
Proof.
  cbv zeta. destruct (label d) as [l'|].
  - destruct (String.eqb_spec l' "") as [->|Hne]; cbn [negb andb].
    + split; [lia|]. split; [|now left].
      intros l [= <-]. cbn. lia.
    + destruct (Nat.ltb_spec n (String.length l')).
      * split; [lia|]. split; [intros l [= <-]; lia|]. right. now exists l'.
      * split; [lia|]. split; [intros l [= <-]; lia|]. now left.
  - split; [lia|]. split; [discriminate|]. now left.
Qed.

(** X15: on a new instance the label width is the length of the longest
    label of the type table: no label is longer, some label has that
    length, and every label padded for display takes one column more than
    the width, whatever its own length. *)
Theorem new_instance_label_width (w : World) (s : Signale) :
  Signale_new w = Ok s ->
  (forall T d l, _types s !! T = Some d -> label d = Some l ->
     (String.length l <= _longestLabel s)%nat
     /\ String.length (padEnd l (_longestLabel s + 1))
        = (_longestLabel s + 1)%nat)
  /\ (exists T d l, _types s !! T = Some d /\ label d = Some l
                    /\ String.length l = _longestLabel s).
Proof.
  unfold Signale_new.
  destruct (types w !! "start") as [st|] eqn:Hst; [|discriminate].
  destruct (label st) as [l0|] eqn:Hl0; [|discriminate].
  intros [= <-]. cbn [_types _longestLabel].
  set (f := fun (_ : string) (d : TypeDesc) (n : nat) =>
              match label d with
              | Some l' =>
                  if negb (String.eqb l' "") && (n <? String.length l')%nat
                  then String.length l' else n
              | None => n
              end).
  assert ((String.length l0 <= map_fold f (String.length l0) (types w))%nat
          /\ (forall T d l, types w !! T = Some d -> label d = Some l ->
                (String.length l <= map_fold f (String.length l0) (types w))%nat)
          /\ (map_fold f (String.length l0) (types w) = String.length l0
              \/ exists T d l, types w !! T = Some d /\ label d = Some l
                   /\ String.length l
                      = map_fold f (String.length l0) (types w)))
    as (Hge & Hall & Hsome).
  { apply (map_fold_weak_ind
             (fun n (m : gmap string TypeDesc) =>
                (String.length l0 <= n)%nat
                /\ (forall T d l, m !! T = Some d -> label d = Some l ->
                      (String.length l <= n)%nat)
                /\ (n = String.length l0
                    \/ exists T d l, m !! T = Some d /\ label d = Some l
                         /\ String.length l = n))).
    - split; [lia|]. split; [|now left].
      intros T d l H. now rewrite lookup_empty in H.
    - intros i d m r Hi (IH1 & IH2 & IH3).
      destruct (longest_step d r) as (S1 & S2 & S3). fold (f i d r) in S1, S2, S3.
      split; [lia|]. split.
      + intros T d' l HT Hl. destruct (decide (i = T)) as [->|Hne].
        * rewrite lookup_insert_eq in HT. injection HT as <-. now apply S2.
        * rewrite lookup_insert_ne in HT by assumption.
          specialize (IH2 T d' l HT Hl). lia.
      + destruct S3 as [S3 | (l & Hl & S3)].
        * rewrite S3. destruct IH3 as [IH3 | (T & d' & l & HT & Hl & IH3)];
            [now left | right].
          exists T, d', l. split; [|now split].
          rewrite lookup_insert_ne; [assumption|]. intros ->. congruence.
        * right. exists i, d, l. rewrite lookup_insert_eq. now repeat split. }
  split.
  - intros T d l HT Hl. specialize (Hall T d l HT Hl). split; [exact Hall|].
    rewrite padEnd_length. lia.
  - destruct Hsome as [E | H]; [|exact H].
    exists "start", st, l0. now repeat split.
Qed.

Lemma new_instance_label_width_witness :
  Signale_new (Sample.world 0) = Ok Sample.fresh
  /\ ((forall T d l, _types Sample.fresh !! T = Some d -> label d = Some l ->
         (String.length l <= _longestLabel Sample.fresh)%nat
         /\ String.length (padEnd l (_longestLabel Sample.fresh + 1))
            = (_longestLabel Sample.fresh + 1)%nat)
      /\ (exists T d l, _types Sample.fresh !! T = Some d /\ label d = Some l
                        /\ String.length l = _longestLabel Sample.fresh)).
Proof.
  assert (Signale_new (Sample.world 0) = Ok Sample.fresh) as H
    by (vm_compute; reflexivity).
  split; [exact H|].
  apply (new_instance_label_width (Sample.world 0) Sample.fresh H).
Defined.

(** ** A start override that is no object *)

(** X16: when [options.both] is not given and [options.start] is a
    primitive that counts as true (a string such as a colour name, a
    number, [true]), [time] throws a [TypeError] before it records the
    timer: the timer map and the stream are as before, and the start
    override is left replaced by that primitive. *)
Theorem time_primitive_start_throws (w : World) (label : option string)
    (m : gmap string value) (st : value) (s : Signale) :
  m !! "start" = Some st ->
  truthy (default VUndef (m !! "both")) = false ->
  truthy st = true ->
  typeof_object st = false ->
  snd (time w label (VObj m) s) = Throw TypeError
  /\ _timers (fst (time w label (VObj m) s)) = _timers s
  /\ _stream (fst (time w label (VObj m) s)) = _stream s
  /\ start (__timers (fst (time w label (VObj m) s))) = st.
Proof.
  intros Hst Hboth Ht Hprim.
  assert (exists k v rest, map_to_list m = (k, v) :: rest) as (k & v & rest & Hl).
  { destruct (map_to_list m) as [|[k v] rest] eqn:E; [|eauto].
    apply map_to_list_empty_iff in E. subst m.
    now rewrite lookup_empty in Hst. }
  assert (js_set st k v = Throw TypeError) as Hset
    by (destruct st; try discriminate; reflexivity).
  unfold time, apply_options, bind, gets, lift, modify, ret.
  cbn [truthy js_get own_entries fst snd]. rewrite Hboth, Hst.
  cbn [default from_option id]. rewrite Ht, Hl.
  destruct (truthy (default VUndef (m !! "end")));
    cbn [forEach]; unfold set_style_entry, set_style_key, bind, gets, lift;
    cbn [fst snd start __timers set_styles]; rewrite Hset;
    repeat split; reflexivity.
Qed.

Lemma time_primitive_start_throws_witness :
  ({["start" := VStr "red"]} : gmap string value) !! "start" = Some (VStr "red")
  /\ truthy (default VUndef
               (({["start" := VStr "red"]} : gmap string value) !! "both"))
     = false
  /\ truthy (VStr "red") = true
  /\ typeof_object (VStr "red") = false
  /\ (snd (time (Sample.world 1) (Some "x") (VObj {["start" := VStr "red"]})
             Sample.fresh) = Throw TypeError
      /\ _timers (fst (time (Sample.world 1) (Some "x")
                         (VObj {["start" := VStr "red"]}) Sample.fresh))
         = _timers Sample.fresh
      /\ _stream (fst (time (Sample.world 1) (Some "x")
                         (VObj {["start" := VStr "red"]}) Sample.fresh))
         = _stream Sample.fresh
      /\ start (__timers (fst (time (Sample.world 1) (Some "x")
                                 (VObj {["start" := VStr "red"]}) Sample.fresh)))
         = VStr "red").
Proof.
  split; [reflexivity|]. split; [reflexivity|]. split; [reflexivity|].
  split; [reflexivity|].
  apply (time_primitive_start_throws (Sample.world 1) (Some "x")
           {["start" := VStr "red"]} (VStr "red") Sample.fresh); reflexivity.
Defined.

(** ** End reports without the elapsed time *)

Lemma replace_first_comma_none (x r : string) :
  includes x "," = false -> replace_first_comma x r = x.
Proof.
  induction x as [|c x IH]; [reflexivity|].
  cbn [includes]. intros H. apply orb_false_iff in H as [Hp Hi].
  cbn [replace_first_comma]. destruct (Ascii.eqb_spec c ",") as [->|Hc].
  - assert (String.prefix "," (String "," x) = true) as Hpre
      by (apply prefix_app; now exists x).
    congruence.
  - now rewrite IH.
Qed.

(** X17: the end report shows the elapsed time only where the text leaves
    a place for it.  When the end override has a text that is a primitive
    counting as true (a non-empty string, say) or an array whose join has
    no comma (a single element without one), the line [timeEnd] composes
    is the same for every elapsed time. *)
Theorem end_text_hides_time (w : World) (s : Signale) (l : string)
    (m : gmap string value) (text : value) (span span' : Z) :
  end_ (__timers s) = VObj m ->
  m !! "text" = Some text ->
  hides_time text = true ->
  0 <= span < 2 ^ 53 -> 0 <= span' < 2 ^ 53 ->
  end_report w s l span = end_report w s l span'.
Proof.
  intros He Ht Hh Hs Hs'.
  assert (forall n, 0 <= n < 2 ^ 53 -> exists t, executionTime n = Ok t) as Hex.
  { intros n Hn. destruct (Z.lt_ge_cases n 1000).
    - rewrite executionTime_millis by lia. eauto.
    - destruct (executionTime_seconds n) as (k & -> & _); [lia | eauto]. }
  destruct (Hex span Hs) as [t E], (Hex span' Hs') as [t' E'].
  unfold end_report. rewrite E, E', He. cbn [obind truthy js_get].
  rewrite Ht. cbn [default from_option id].
  match goal with
  | |- context [badge_or ?a ?b ?c] => destruct (badge_or a b c)
  end; cbn [obind]; try reflexivity.
  destruct text as [| |[]|?|?|xs|?|? ? ?]; try discriminate Hh;
    cbn [is_object_text textType String.eqb Ascii.eqb Bool.eqb obind truthy];
    try reflexivity.
  - unfold hides_time, is_object_text in Hh. cbn in Hh. now rewrite Hh.
  - unfold hides_time, is_object_text in Hh. cbn in Hh. now rewrite Hh.
  - unfold hides_time in Hh. apply negb_true_iff in Hh.
    now rewrite !replace_first_comma_none.
Qed.

Lemma end_text_hides_time_witness :
  end_ (__timers (set_styles {| start := VObj ∅;
                                end_ := VObj {["text" := VStr "done"]} |}
                    Sample.fresh))
  = VObj {["text" := VStr "done"]}
  /\ ({["text" := VStr "done"]} : gmap string value) !! "text"
     = Some (VStr "done")
  /\ hides_time (VStr "done") = true
  /\ 0 <= 5 < 2 ^ 53 /\ 0 <= 2500 < 2 ^ 53
  /\ end_report (Sample.world 0)
       (set_styles {| start := VObj ∅;
                      end_ := VObj {["text" := VStr "done"]} |} Sample.fresh)
       "x" 5
     = end_report (Sample.world 0)
         (set_styles {| start := VObj ∅;
                        end_ := VObj {["text" := VStr "done"]} |} Sample.fresh)
         "x" 2500.
Proof.
  split; [reflexivity|]. split; [reflexivity|]. split; [reflexivity|].
  split; [vm_compute; split; [discriminate | reflexivity]|].
  split; [vm_compute; split; [discriminate | reflexivity]|].
  apply (end_text_hides_time (Sample.world 0) _ "x"
           {["text" := VStr "done"]} (VStr "done") 5 2500);
    [reflexivity | reflexivity | reflexivity
    | vm_compute; split; [discriminate | reflexivity]
    | vm_compute; split; [discriminate | reflexivity]].
Defined.
